(** * CrawlFlow: the four-stage site pipeline (crawl, extract, transform,
    aggregate), embedded from [src/src/*.py].

    Python [str] values are sequences of Unicode code points and are modelled
    as [list Z]; dictionaries whose order is irrelevant are [gmap]s; the file
    system is a finite map from paths to documents.  Library calls
    (urllib, BeautifulSoup, [str.lower], float rounding) are collected in the
    record [PyLib] and stay abstract in every general statement. *)

From Stdlib Require Import ZArith List Lia Decimal DecimalNat QArith Qcanon.
From stdpp Require Import base gmap strings list fin_maps.

Open Scope Z_scope.

(** ** Python strings *)

Abbreviation pystr := (list Z).

(** A literal: the code points of an ASCII string. *)
Definition py (s : string) : pystr :=
  (λ a, Z.of_nat (Ascii.nat_of_ascii a)) <$> String.list_ascii_of_string s.

(** [s.startswith(p)] *)
Fixpoint startswith (p s : pystr) : bool :=
  match p, s with
  | [], _ => true
  | _ :: _, [] => false
  | a :: p', b :: s' => (a =? b) && startswith p' s'
  end.

(** [sub in s] *)
Fixpoint contains (sub s : pystr) : bool :=
  startswith sub s ||
  match s with
  | [] => false
  | _ :: s' => contains sub s'
  end.

(** [s.endswith(p)] *)
Definition endswith (p s : pystr) : bool := startswith (reverse p) (reverse s).

(** [str.isspace] on one code point; the regular expression class [\s]
    on [str] patterns uses the same table. *)
Definition is_space (c : Z) : bool :=
  ((9 <=? c) && (c <=? 13)) || ((28 <=? c) && (c <=? 32)) ||
  (c =? 0x85) || (c =? 0xA0) || (c =? 0x1680) ||
  ((0x2000 <=? c) && (c <=? 0x200A)) ||
  (c =? 0x2028) || (c =? 0x2029) || (c =? 0x202F) || (c =? 0x205F) ||
  (c =? 0x3000).

Fixpoint lstrip (s : pystr) : pystr :=
  match s with
  | [] => []
  | c :: s' => if is_space c then lstrip s' else s
  end.

Definition rstrip (s : pystr) : pystr := reverse (lstrip (reverse s)).

(** [s.strip()] *)
Definition strip (s : pystr) : pystr := rstrip (lstrip s).

(** [sep.join(parts)] *)
Fixpoint join (sep : pystr) (parts : list pystr) : pystr :=
  match parts with
  | [] => []
  | [p] => p
  | p :: rest => p ++ sep ++ join sep rest
  end.

(** Decimal rendering of integers, as [str(n)] and the format [d]. *)
Fixpoint digits_of_uint (d : Decimal.uint) : pystr :=
  match d with
  | Nil => []
  | D0 d => 48 :: digits_of_uint d
  | D1 d => 49 :: digits_of_uint d
  | D2 d => 50 :: digits_of_uint d
  | D3 d => 51 :: digits_of_uint d
  | D4 d => 52 :: digits_of_uint d
  | D5 d => 53 :: digits_of_uint d
  | D6 d => 54 :: digits_of_uint d
  | D7 d => 55 :: digits_of_uint d
  | D8 d => 56 :: digits_of_uint d
  | D9 d => 57 :: digits_of_uint d
  end.

Definition str_of_nat (n : nat) : pystr := digits_of_uint (Nat.to_uint n).

Definition str_of_int (z : Z) : pystr :=
  if z <? 0 then 45 :: str_of_nat (Z.to_nat (- z)) else str_of_nat (Z.to_nat z).

(** [int(s)] for a string of decimal digits *)
Definition nat_of_digits (s : pystr) : nat :=
  foldl (λ acc c, acc * 10 + Z.to_nat (c - 48))%nat 0%nat s.

(** The format [{i:02d}] for a non-negative [i]. *)
Definition fmt_02d (i : nat) : pystr :=
  let s := str_of_nat i in
  if (length s <? 2)%nat then 48 :: s else s.

(** ** extractor.py: [clean_text] *)

(** [re.sub(r'\s+', ' ', s)]: every maximal run of whitespace becomes one
    U+0020.  [in_run] records that the previous code point was whitespace. *)
Fixpoint sub_ws (in_run : bool) (s : pystr) : pystr :=
  match s with
  | [] => []
  | c :: s' =>
      if is_space c
      then (if in_run then sub_ws true s' else 32 :: sub_ws true s')
      else c :: sub_ws false s'
  end.

Definition is_zero_width (c : Z) : bool :=
  (c =? 0x200B) || (c =? 0x200C) || (c =? 0x200D) || (c =? 0xFEFF).

(** [re.sub(r'[\u200b\u200c\u200d\ufeff]', '', s)] *)
Definition sub_zero_width (s : pystr) : pystr :=
  filter (λ c, is_zero_width c = false) s.

Definition clean_text (text : pystr) : pystr :=
  match text with
  | [] => []
  | _ => sub_zero_width (sub_ws false (strip text))
  end.

(** ** Data model *)

Inductive PageEntry :=
| PageFetched (url : pystr) (status : Z) (size_bytes : nat) (timestamp : pystr)
| PageError (error : pystr).

(** The ["status"] field: a failed fetch is recorded with status 0. *)
Definition page_status (p : PageEntry) : Z :=
  match p with
  | PageFetched _ st _ _ => st
  | PageError _ => 0
  end.

Record CrawlMetadata := {
  website : pystr;
  domain : pystr;
  crawl_timestamp : pystr;
  pages : gmap pystr PageEntry
}.

Record Extracted := {
  ex_website : pystr;
  ex_domain : pystr;
  ex_crawl_timestamp : pystr;
  sections : gmap pystr pystr
}.

Record StdRecord := {
  r_website : pystr;
  r_section : pystr;
  r_content : pystr;
  r_crawl_timestamp : pystr;
  r_isActive : bool
}.

(** A Python number: [statistics.mean] of integers is an [int] when the
    mean is integral and a [float] otherwise. *)
Inductive pynum :=
| PyInt (z : Z)
| PyFloat (q : Qc).

Record SectionStats := {
  st_min : nat;
  st_max : nat;
  st_avg : pynum;
  st_count : nat
}.

Record Summary := {
  total_websites_processed : nat;
  num_websites_with_case_studies : nat;
  active_websites : nat;
  inactive_websites : nat;
  content_length_stats : gmap pystr SectionStats;
  aggregation_timestamp : pystr
}.

(** ** File system

    A file holds text or one of the JSON documents the stages exchange;
    [json.dump] followed by [json.load] is taken to be lossless.  Paths
    are compared as they are written.  The crawler and the extractor write
    into a directory they have just created or checked ([write_file]); the
    transformer and the aggregator open their output file in a directory that
    nothing in the program creates ([open_w]). *)

Inductive file :=
| FText (content : pystr)
| FMetadata (m : CrawlMetadata)
| FExtracted (e : Extracted)
| FRecords (rs : list StdRecord)
| FSummary (s : Summary).

Record filesystem := {
  dirs : gset pystr;
  files : gmap pystr file
}.

Definition isdir (fs : filesystem) (p : pystr) : bool := bool_decide (p ∈ dirs fs).

Definition isfile (fs : filesystem) (p : pystr) : bool :=
  bool_decide (is_Some (files fs !! p)).

(** [os.makedirs(p, exist_ok=True)] *)
Definition makedirs (p : pystr) (fs : filesystem) : filesystem :=
  {| dirs := {[ p ]} ∪ dirs fs; files := files fs |}.

Definition write_file (p : pystr) (f : file) (fs : filesystem) : filesystem :=
  {| dirs := dirs fs; files := <[ p := f ]> (files fs) |}.

(** [os.path.join(a, b)] (POSIX) *)
Definition path_join (a b : pystr) : pystr :=
  if startswith (py "/") b then b
  else match a with
       | [] => b
       | _ => if endswith (py "/") a then a ++ b else a ++ py "/" ++ b
       end.

(** [p[:p.rfind('/') + 1]] *)
Fixpoint up_to_last_slash (p : pystr) : pystr :=
  match p with
  | [] => []
  | c :: rest =>
      match c =? 47, up_to_last_slash rest with
      | false, [] => []
      | _, head => c :: head
      end
  end.

Fixpoint lstrip_slashes (s : pystr) : pystr :=
  match s with
  | c :: rest => if c =? 47 then lstrip_slashes rest else s
  | [] => []
  end.

(** [s.rstrip('/')] *)
Definition rstrip_slashes (s : pystr) : pystr := reverse (lstrip_slashes (reverse s)).

(** [os.path.dirname(p)] (POSIX): the text up to the last slash, without
    its trailing slashes unless it consists of slashes only. *)
Definition dirname (p : pystr) : pystr :=
  let head := up_to_last_slash p in
  if forallb (Z.eqb 47) head then head else rstrip_slashes head.

(** The current directory (empty name) and the root always exist. *)
Definition dir_exists (fs : filesystem) (d : pystr) : bool :=
  forallb (Z.eqb 47) d || isdir fs d.

(** Whether [open(p, "w")] succeeds: [p] names something (it is not empty
    and does not end in a slash), the directory part of [p] exists
    (otherwise [FileNotFoundError]) and [p] is not itself a directory
    ([IsADirectoryError]).  Permissions and disk space are left out. *)
Definition writable (fs : filesystem) (p : pystr) : bool :=
  match last p with
  | None => false
  | Some c => negb (c =? 47)
  end
  && dir_exists fs (dirname p)
  && negb (isdir fs p).

(** [with open(p, "w") as f: json.dump(doc, f)]; [None] when [open]
    raises, in which case nothing is written. *)
Definition open_w (p : pystr) (doc : file) (fs : filesystem) : option filesystem :=
  if writable fs p then Some (write_file p doc fs) else None.

(** ** Library functions

    What the program calls in urllib, BeautifulSoup, [str] and the float
    runtime.  Dates are carried as their [isoformat()] text. *)

Record PyLib := {
  (** [urlparse(url)]: the pair [(netloc, path)] *)
  urlparse : pystr → pystr * pystr;
  (** [urljoin(base, href)]; [None] when it raises [ValueError] *)
  urljoin : pystr → pystr → option pystr;
  (** [s.lower()] *)
  str_lower : pystr → pystr;
  (** [[a['href'] for a in soup.find_all('a', href=True)]], document order *)
  find_all_a_href : pystr → list pystr;
  (** the text chosen by the DOM heuristics of [extract_section_from_html]
      (lines 63-131) for a non-empty document and a section type *)
  section_text : pystr → pystr → pystr;
  (** [round(float(q), 2)] for an exact fraction [q] *)
  round2_float : Qc → Qc;
  (** the text [json.dump] writes for a document *)
  json_text : file → pystr
}.

(** ** utils.py *)

(** [path.split('/')[0]] *)
Fixpoint before_slash (s : pystr) : pystr :=
  match s with
  | [] => []
  | c :: s' => if c =? 47 then [] else c :: before_slash s'
  end.

Definition get_domain (L : PyLib) (url : pystr) : pystr :=
  let '(netloc, path) := urlparse L url in
  match netloc with
  | [] => before_slash path
  | _ => netloc
  end.

(** [(execution_date or datetime.utcnow()).isoformat() + 'Z'] *)
Definition run_timestamp (execution_date : option pystr) (utcnow : pystr) : pystr :=
  default utcnow execution_date ++ py "Z".

(** The network: the answer to a request may depend on the requests made
    before it. *)
Inductive response :=
| Response (status_code : Z) (text : pystr)
| RequestException (msg : pystr).

Abbreviation network := (list pystr → pystr → response).

(** ** crawler.py *)

Definition MAX_CASE_STUDY_PAGES : Z := 3.
Definition MAX_INTERNAL_PAGES : Z := 4.

Definition CASE_STUDY_KEYWORDS : list pystr :=
  [py "case-study"; py "case-studies"; py "success-story"; py "success-stories";
   py "customer-story"; py "customer-stories"; py "case"; py "stories";
   py "/clients/"; py "/work/"].

(** [l[:n]] for a possibly negative bound *)
Definition slice_to {A} (n : Z) (l : list A) : list A :=
  if 0 <=? n then take (Z.to_nat n) l
  else take (Z.to_nat (Z.of_nat (length l) + n)) l.

(** The two candidate lists built while the anchors are visited. *)
Record candidates := {
  case_study_candidates : list pystr;
  internal_candidates : list pystr
}.

(** One iteration of the loop over the anchors (lines 113-133); [None] when
    [urljoin] raises. *)
Definition classify_link (L : PyLib) (url : pystr) (max_internal : Z)
    (acc : candidates) (a_href : pystr) : option candidates :=
  let href := strip a_href in
  full_url ← urljoin L url href;
  if negb (startswith (py "http://") full_url || startswith (py "https://") full_url)
  then Some acc
  else if contains (py "#") href || contains (py "javascript:") (str_lower L href)
  then Some acc
  else
    let lower_href := str_lower L href in
    if existsb (λ kw, contains kw lower_href) CASE_STUDY_KEYWORDS then
      if bool_decide (full_url ∈ case_study_candidates acc) then Some acc
      else Some {| case_study_candidates := case_study_candidates acc ++ [full_url];
                   internal_candidates := internal_candidates acc |}
    else if startswith url full_url && negb (bool_decide (full_url = url)) then
      if Z.of_nat (length (internal_candidates acc)) <? max_internal
      then Some {| case_study_candidates := case_study_candidates acc;
                   internal_candidates := internal_candidates acc ++ [full_url] |}
      else Some acc
    else Some acc.

Fixpoint classify_links (L : PyLib) (url : pystr) (max_internal : Z)
    (acc : candidates) (hrefs : list pystr) : option candidates :=
  match hrefs with
  | [] => Some acc
  | h :: rest =>
      acc' ← classify_link L url max_internal acc h;
      classify_links L url max_internal acc' rest
  end.

Definition no_candidates : candidates :=
  {| case_study_candidates := []; internal_candidates := [] |}.

(** The Link Classifier on a homepage document (lines 107-133). *)
Definition link_classifier (L : PyLib) (url html : pystr) (max_internal : Z)
    : option candidates :=
  classify_links L url max_internal no_candidates (find_all_a_href L html).

(** What a crawl changes: the files, the log of requests sent, the pages of
    the metadata under construction and the counter of saved case studies. *)
Record crawl_state := {
  c_fs : filesystem;
  c_log : list pystr;
  c_pages : gmap pystr PageEntry;
  c_fetched : nat
}.

Definition case_study_key (i : nat) : pystr := py "case_study_" ++ fmt_02d i.

Definition case_study_file (i : nat) : pystr := case_study_key i ++ py ".html".

(** The loop [for i, case_url in enumerate(..., 1)] (lines 140-162),
    entered with the current index [i]. *)
Fixpoint fetch_case_studies (net : network) (base_dir timestamp : pystr)
    (i : nat) (cands : list pystr) (st : crawl_state) : crawl_state :=
  match cands with
  | [] => st
  | case_url :: rest =>
      let log' := c_log st ++ [case_url] in
      let st' :=
        match net (c_log st) case_url with
        | Response status_code text =>
            if status_code =? 200 then
              {| c_fs := write_file (path_join base_dir (case_study_file i))
                           (FText text) (c_fs st);
                 c_log := log';
                 c_pages := <[ case_study_key i :=
                                 PageFetched case_url status_code (length text) timestamp ]>
                              (c_pages st);
                 c_fetched := S (c_fetched st) |}
            else {| c_fs := c_fs st; c_log := log'; c_pages := c_pages st;
                    c_fetched := c_fetched st |}
        | RequestException _ =>
            {| c_fs := c_fs st; c_log := log'; c_pages := c_pages st;
               c_fetched := c_fetched st |}
        end in
      fetch_case_studies net base_dir timestamp (S i) rest st'
  end.

Inductive crawl_result :=
| CrawlSuccess (case_studies_found : nat) (metadata_path : pystr)
| CrawlStopped (status reason : pystr) (metadata : CrawlMetadata).

Definition crawl_status (r : crawl_result) : pystr :=
  match r with
  | CrawlSuccess _ _ => py "success"
  | CrawlStopped st _ _ => st
  end.

(** The file system and the request log around a crawl. *)
Record world := {
  w_fs : filesystem;
  w_log : list pystr
}.

Definition crawl_website (L : PyLib) (net : network) (utcnow : pystr)
    (url raw_base_dir : pystr) (execution_date : option pystr)
    (max_case_studies max_internal : Z) (w : world) : world * crawl_result :=
  let domain := get_domain L url in
  let timestamp := run_timestamp execution_date utcnow in
  let base_dir := path_join raw_base_dir domain in
  let fs0 := makedirs base_dir (w_fs w) in
  let metadata := λ pgs, {| website := url; domain := domain;
                            crawl_timestamp := timestamp; pages := pgs |} in
  let homepage_path := path_join base_dir (py "homepage.html") in
  let log1 := w_log w ++ [url] in
  match net (w_log w) url with
  | RequestException e =>
      ({| w_fs := fs0; w_log := log1 |},
       CrawlStopped (py "failed") (py "homepage_fetch_error")
         (metadata {[ py "homepage" := PageError e ]}))
  | Response status text =>
      let html := if status =? 200 then text else [] in
      let fs1 := write_file homepage_path (FText html) fs0 in
      let pages1 : gmap pystr PageEntry :=
        {[ py "homepage" := PageFetched url status (length html) timestamp ]} in
      if negb (status =? 200) then
        ({| w_fs := fs1; w_log := log1 |},
         CrawlStopped (py "partial") (py "homepage_" ++ str_of_int status)
           (metadata pages1))
      else
        match link_classifier L url html max_internal with
        | None =>
            ({| w_fs := fs1; w_log := log1 |},
             CrawlStopped (py "partial") (py "parsing_error") (metadata pages1))
        | Some cands =>
            let st := fetch_case_studies net base_dir timestamp 1
                        (slice_to max_case_studies (case_study_candidates cands))
                        {| c_fs := fs1; c_log := log1; c_pages := pages1;
                           c_fetched := 0 |} in
            let metadata_path := path_join base_dir (py "metadata.json") in
            ({| w_fs := write_file metadata_path (FMetadata (metadata (c_pages st)))
                          (c_fs st);
                w_log := c_log st |},
             CrawlSuccess (c_fetched st) metadata_path)
        end
  end.

(** ** extractor.py *)

Definition extract_section_from_html (L : PyLib) (html section_type : pystr) : pystr :=
  match html with
  | [] => []
  | _ => clean_text (section_text L html section_type)
  end.

(** [f.read()]: a JSON document read back as text is the text that
    [json.dump] wrote. *)
Definition read_text (L : PyLib) (f : file) : pystr :=
  match f with
  | FText t => t
  | _ => json_text L f
  end.

(** The loop [while True] over [case_study_{i:02d}.html] (lines 178-188),
    entered at index [i] with the texts collected so far; [None] when the
    fuel runs out before a missing file is met. *)
Fixpoint scan_case_studies (L : PyLib) (fs : filesystem) (base_dir : pystr)
    (fuel i : nat) (case_content : list pystr) : option (list pystr) :=
  match fuel with
  | O => None
  | S fuel' =>
      match files fs !! path_join base_dir (case_study_file i) with
      | None => Some case_content
      | Some f =>
          let page_text := extract_section_from_html L (read_text L f) (py "case_study") in
          scan_case_studies L fs base_dir fuel' (S i)
            (match page_text with
             | [] => case_content
             | _ => case_content ++ [page_text]
             end)
      end
  end.

Inductive extract_result :=
| ExtractSkipped (reason : pystr)
| ExtractSuccess (sections_extracted : list pystr) (output_path : pystr).

(** Steps 1 and 2 (lines 163-174): the homepage section when
    [homepage.html] exists, then navbar and footer when that section is
    non-empty. *)
Definition homepage_sections (L : PyLib) (fs : filesystem) (homepage_path : pystr)
    : gmap pystr pystr :=
  let s1 : gmap pystr pystr :=
    match files fs !! homepage_path with
    | Some f => {[ py "homepage" :=
                     extract_section_from_html L (read_text L f) (py "homepage") ]}
    | None => ∅
    end in
  match s1 !! py "homepage", files fs !! homepage_path with
  | Some (_ :: _), Some f =>
      <[ py "footer" := extract_section_from_html L (read_text L f) (py "footer") ]>
        (<[ py "navbar" := extract_section_from_html L (read_text L f) (py "navbar") ]> s1)
  | _, _ => s1
  end.

(** [None] only if the scan of the case-study files does not finish within
    one step per stored file plus one, which [extract_and_tag_total] rules
    out. *)
Definition extract_and_tag (L : PyLib) (utcnow : pystr) (url raw_base_dir : pystr)
    (execution_date : option pystr) (fs : filesystem)
    : option (filesystem * extract_result) :=
  let domain := get_domain L url in
  let base_dir := path_join raw_base_dir domain in
  if negb (isdir fs base_dir) then Some (fs, ExtractSkipped (py "no_raw_data"))
  else
    let timestamp := run_timestamp execution_date utcnow in
    let homepage_path := path_join base_dir (py "homepage.html") in
    let s2 := homepage_sections L fs homepage_path in
    case_content ← scan_case_studies L fs base_dir (S (size (files fs))) 1 [];
    let s3 :=
      match case_content with
      | [] => s2
      | _ => <[ py "case_study" := join (py " ") case_content ]> s2
      end in
    let extracted_path := path_join base_dir (py "extracted.json") in
    let extracted := {| ex_website := url; ex_domain := domain;
                        ex_crawl_timestamp := timestamp; sections := s3 |} in
    Some (write_file extracted_path (FExtracted extracted) fs,
          ExtractSuccess (map_to_list s3).*1 extracted_path).

(** ** transformer.py *)

Inductive transform_result :=
| TransformSkipped (reason : pystr)
| TransformSuccess (records_count : nat) (output_path : pystr)
| TransformRaised.

(** [metadata.get("pages", {}).get("homepage", {}).get("status", 500)] *)
Definition homepage_status (m : CrawlMetadata) : Z :=
  match pages m !! py "homepage" with
  | Some p => page_status p
  | None => 500
  end.

(** [any(len(content) > 0 for content in sections.values())] *)
Definition has_content (secs : gmap pystr pystr) : bool :=
  existsb (λ content, (0 <? length content)%nat) (map_to_list secs).*2.

Definition is_active (m : CrawlMetadata) (e : Extracted) : bool :=
  (homepage_status m =? 200) && has_content (sections e).

(** The records built by the loop over [sections.items()]. *)
Definition build_records (url timestamp : pystr) (active : bool)
    (secs : gmap pystr pystr) : list StdRecord :=
  (λ kv, {| r_website := url; r_section := kv.1; r_content := kv.2;
            r_crawl_timestamp := timestamp; r_isActive := active |})
    <$> map_to_list secs.

(** [TransformRaised]: the call raises, either because [json.load] met a
    file that is not the expected document, or because the record file
    cannot be opened (line 73; [processed_base_dir] is not created here). *)
Definition transform_to_standard (L : PyLib) (utcnow : pystr)
    (url raw_base_dir processed_base_dir : pystr) (execution_date : option pystr)
    (fs : filesystem) : filesystem * transform_result :=
  let domain := get_domain L url in
  let base_dir := path_join raw_base_dir domain in
  let processed_path := path_join processed_base_dir (domain ++ py ".json") in
  if negb (isdir fs base_dir) then (fs, TransformSkipped (py "no_raw_data"))
  else
    let extracted_path := path_join base_dir (py "extracted.json") in
    let metadata_path := path_join base_dir (py "metadata.json") in
    if negb (isfile fs extracted_path && isfile fs metadata_path)
    then (fs, TransformSkipped (py "missing_inputs"))
    else
      match files fs !! extracted_path, files fs !! metadata_path with
      | Some (FExtracted extracted), Some (FMetadata metadata) =>
          let timestamp := run_timestamp execution_date utcnow in
          let records := build_records url timestamp (is_active metadata extracted)
                           (sections extracted) in
          match open_w processed_path (FRecords records) fs with
          | Some fs' => (fs', TransformSuccess (length records) processed_path)
          | None => (fs, TransformRaised)
          end
      | _, _ => (fs, TransformRaised)
      end.

(** ** aggregator.py *)

(** [url.split('//')[-1]]: the text after the last of the occurrences of
    [//] found from left to right; [cur] is the piece being read. *)
Fixpoint last_after_double_slash (cur s : pystr) : pystr :=
  match s with
  | [] => cur
  | c :: s' =>
      match s' with
      | d :: s'' =>
          if (c =? 47) && (d =? 47) then last_after_double_slash [] s''
          else last_after_double_slash (cur ++ [c]) s'
      | [] => cur ++ [c]
      end
  end.

(** [url.split('//')[-1].split('/')[0]] *)
Definition simplified_domain (url : pystr) : pystr :=
  before_slash (last_after_double_slash [] url).

(** [os.path.join(processed_base_dir, f"{domain}.json")] with the
    aggregator's own domain of a URL *)
Definition processed_file (processed_base_dir url : pystr) : pystr :=
  path_join processed_base_dir (simplified_domain url ++ py ".json").

Record loaded := {
  all_records : list StdRecord;
  website_active_status : gmap pystr bool
}.

(** The loop over the configured sites (lines 34-43); [None] when
    [json.load] meets a file that is not a record list. *)
Fixpoint load_processed (fs : filesystem) (processed_base_dir : pystr)
    (websites : list pystr) (acc : loaded) : option loaded :=
  match websites with
  | [] => Some acc
  | url :: rest =>
      match files fs !! processed_file processed_base_dir url with
      | None => load_processed fs processed_base_dir rest acc
      | Some (FRecords records) =>
          load_processed fs processed_base_dir rest
            {| all_records := all_records acc ++ records;
               website_active_status :=
                 match records with
                 | r :: _ => <[ url := r_isActive r ]> (website_active_status acc)
                 | [] => website_active_status acc
                 end |}
      | Some _ => None
      end
  end.

(** [section_lengths[r["section"]].append(len(r["content"]))] for the
    records with a truthy content (lines 62-65). *)
Fixpoint collect_lengths (rs : list StdRecord) (section_lengths : gmap pystr (list nat))
    : gmap pystr (list nat) :=
  match rs with
  | [] => section_lengths
  | r :: rest =>
      collect_lengths rest
        (match r_content r with
         | [] => section_lengths
         | _ => <[ r_section r :=
                     default [] (section_lengths !! r_section r) ++ [length (r_content r)] ]>
                  section_lengths
         end)
  end.

(** [min(lengths)] and [max(lengths)]; both raise on an empty list, which
    [collect_lengths] never stores, and are given 0 there. *)
Definition py_min (l : list nat) : nat :=
  match l with
  | [] => O
  | x :: l' => foldl Nat.min x l'
  end.

Definition py_max (l : list nat) : nat :=
  match l with
  | [] => O
  | x :: l' => foldl Nat.max x l'
  end.

Definition sum_lengths (l : list nat) : Z := foldr (λ x acc, Z.of_nat x + acc) 0 l.

(** [round(mean(lengths), 2)]: [statistics.mean] returns the exact [int]
    when the mean of integers is integral, and [round] leaves an [int]
    unchanged; otherwise the fraction is converted to a float and rounded.
    [mean] raises on an empty list, which is never passed. *)
Definition round_mean (L : PyLib) (lengths : list nat) : pynum :=
  let total := sum_lengths lengths in
  let n := Z.of_nat (length lengths) in
  if total mod n =? 0 then PyInt (total / n)
  else PyFloat (round2_float L (Q2Qc (Qmake total (Z.to_pos n)))).

Definition section_stats (L : PyLib) (lengths : list nat) : SectionStats :=
  {| st_min := py_min lengths;
     st_max := py_max lengths;
     st_avg := round_mean L lengths;
     st_count := length lengths |}.

(** [sum(1 for x in xs if p(x))] *)
Definition count_if {A} (p : A → bool) (xs : list A) : nat := length (List.filter p xs).

Definition compute_metrics (L : PyLib) (timestamp : pystr) (ld : loaded) : Summary :=
  {| total_websites_processed := size (website_active_status ld);
     num_websites_with_case_studies :=
       count_if (λ r, bool_decide (r_section r = py "case_study")
                      && (0 <? length (r_content r))%nat) (all_records ld);
     active_websites :=
       count_if (λ active : bool, active) (map_to_list (website_active_status ld)).*2;
     inactive_websites :=
       count_if negb (map_to_list (website_active_status ld)).*2;
     content_length_stats := section_stats L <$> collect_lengths (all_records ld) ∅;
     aggregation_timestamp := timestamp |}.

Inductive aggregate_result :=
| AggregateSkipped (reason : pystr)
| AggregateSuccess (metrics_summary : Summary) (output_path : pystr)
| AggregateRaised.

(** [websites] is the configured site list that [load_websites] returns.
    [AggregateRaised]: the call raises, either because [json.load] met a file
    that is not a record list, or because [summary.json] cannot be opened
    (line 79; [metrics_dir] is not created here). *)
Definition compute_and_save_metrics (L : PyLib) (utcnow : pystr)
    (websites : list pystr) (processed_base_dir metrics_dir : pystr)
    (execution_date : option pystr) (fs : filesystem)
    : filesystem * aggregate_result :=
  match load_processed fs processed_base_dir websites
          {| all_records := []; website_active_status := ∅ |} with
  | None => (fs, AggregateRaised)
  | Some ld =>
      match all_records ld with
      | [] => (fs, AggregateSkipped (py "no_data"))
      | _ =>
          let metrics := compute_metrics L (run_timestamp execution_date utcnow) ld in
          let summary_path := path_join metrics_dir (py "summary.json") in
          match open_w summary_path (FSummary metrics) fs with
          | Some fs' => (fs', AggregateSuccess metrics summary_path)
          | None => (fs, AggregateRaised)
          end
      end
  end.

(** ** A concrete library and site for the examples

    Each function agrees with the library it stands for on the inputs the
    examples use: a base URL of the form [scheme://host], hrefs that are
    absolute URLs or absolute paths, anchors written [<a href='...'>],
    documents without markup, ASCII text. *)

Definition ascii_lower (s : pystr) : pystr :=
  (λ c, if (65 <=? c) && (c <=? 90) then c + 32 else c) <$> s.

(** [urljoin] raises [ValueError] on the href [//[] (an unterminated IPv6
    host). *)
Definition demo_urljoin (base href : pystr) : option pystr :=
  if bool_decide (href = py "//[") then None
  else if startswith (py "http://") href || startswith (py "https://") href
  then Some href
  else if startswith (py "/") href then Some (base ++ href)
  else Some (base ++ py "/" ++ href).

Fixpoint until_quote (s : pystr) : pystr :=
  match s with
  | [] => []
  | c :: s' => if c =? 39 then [] else c :: until_quote s'
  end.

Fixpoint demo_find_all_a_href (html : pystr) : list pystr :=
  match html with
  | [] => []
  | _ :: rest =>
      (if startswith (py "<a href='") html then [until_quote (drop 9 html)] else [])
      ++ demo_find_all_a_href rest
  end.

(** Without markup there is no [main], [body], [nav] or [footer]: only the
    case-study branch finds text, the stripped document. *)
Definition demo_section_text (html section_type : pystr) : pystr :=
  if bool_decide (section_type = py "case_study") then strip html else [].

(** Exact rounding to two decimals, half to even. *)
Definition demo_round2 (q : Qc) : Qc :=
  let n := Qnum q * 100 in
  let d := Z.pos (Qden q) in
  let f := n / d in
  let r := n mod d in
  let h := if (2 * r <? d) then f
           else if (d <? 2 * r) then f + 1
           else if Z.even f then f else f + 1 in
  Q2Qc (Qmake h 100).

Definition demo_lib : PyLib :=
  {| urlparse := λ url, (simplified_domain url, []);
     urljoin := demo_urljoin;
     str_lower := ascii_lower;
     find_all_a_href := demo_find_all_a_href;
     section_text := demo_section_text;
     round2_float := demo_round2;
     json_text := λ _, [] |}.

Definition demo_url : pystr := py "https://x.com".

Definition empty_fs : filesystem := {| dirs := ∅; files := ∅ |}.

Definition empty_world : world := {| w_fs := empty_fs; w_log := [] |}.

(** A homepage with two case-study links; the first one answers 404. *)
Definition gap_homepage : pystr :=
  py "<a href='/case-study/a'>A</a> <a href='/case-study/b'>B</a>".

Definition gap_net : network := λ _ u,
  if bool_decide (u = demo_url) then Response 200 gap_homepage
  else if bool_decide (u = py "https://x.com/case-study/a") then Response 404 (py "gone")
  else if bool_decide (u = py "https://x.com/case-study/b") then Response 200 (py "story b")
  else RequestException (py "unreachable").

(** A homepage that links the same internal page twice. *)
Definition dup_homepage : pystr :=
  py "<a href='/about'>About</a> <a href='/about'>About us</a>".

(** A site directory with one stored case-study page, an empty document. *)
Definition empty_case_fs : filesystem :=
  {| dirs := {[ py "data/raw/x.com" ]};
     files := {[ py "data/raw/x.com/case_study_01.html" := FText [] ]} |}.

(** ** Vocabulary of the statements *)

(** The case-study texts the extraction keeps from the stored pages
    [docs], in page order: the non-empty ones. *)
Definition kept_case_texts (L : PyLib) (docs : list file) : list pystr :=
  filter (λ t, t ≠ [])
    ((λ f, extract_section_from_html L (read_text L f) (py "case_study")) <$> docs).


(** The record list stored for a configured site, empty when there is
    none. *)
Definition stored_records (fs : filesystem) (processed_base_dir url : pystr)
    : list StdRecord :=
  match files fs !! processed_file processed_base_dir url with
  | Some (FRecords rs) => rs
  | _ => []
  end.

(** Some two neighbouring code points are both whitespace. *)
Fixpoint has_whitespace_run (s : pystr) : bool :=
  match s with
  | c :: (d :: _) as s' => (is_space c && is_space d) || has_whitespace_run s'
  | _ => false
  end.

(** The text is empty or begins with a code point that is not whitespace. *)
Definition starts_clean (s : pystr) : Prop :=
  match s with
  | [] => True
  | c :: _ => is_space c = false
  end.

Definition ends_clean (s : pystr) : Prop := starts_clean (reverse s).

(** ** Sites and runs of the examples *)

Definition demo_now : pystr := py "2026-01-20T10:30:00".

(** Every request is answered 404 with a body. *)
Definition net_404 : network := λ _ _, Response 404 (py "Not Found").

(** Every request fails in transport. *)
Definition net_down : network := λ _ _, RequestException (py "connection refused").

(** A homepage with an internal link, a case-study link and a blog link. *)
Definition mixed_homepage : pystr :=
  py "<a href='/about'>About</a> <a href='/Case-Study/acme'>Acme</a> <a href='/blog'>Blog</a>".

Definition demo_metadata : CrawlMetadata :=
  {| website := demo_url; domain := py "x.com";
     crawl_timestamp := py "2026-01-19T10:30:00Z";
     pages := {[ py "homepage" :=
                   PageFetched demo_url 200 5 (py "2026-01-19T10:30:00Z") ]} |}.

Definition demo_extracted : Extracted :=
  {| ex_website := demo_url; ex_domain := py "x.com";
     ex_crawl_timestamp := py "2026-01-19T10:30:00Z";
     sections := {[ py "homepage" := py "Hello"; py "navbar" := [] ]} |}.

(** The artifacts a complete earlier run leaves in the site directory, and
    the directories of the record files and of the summary. *)
Definition crawled_fs : filesystem :=
  {| dirs := {[ py "data/raw/x.com"; py "data/processed"; py "data/metrics" ]};
     files := {[ py "data/raw/x.com/homepage.html" := FText (py "Hello");
                 py "data/raw/x.com/metadata.json" := FMetadata demo_metadata;
                 py "data/raw/x.com/extracted.json" := FExtracted demo_extracted ]} |}.

(** Case-study pages 1 to 3, the second one empty, none numbered 4, and a
    page numbered 5 beyond the gap. *)
Definition pages_fs : filesystem :=
  {| dirs := {[ py "data/raw/x.com" ]};
     files := {[ py "data/raw/x.com/case_study_01.html" := FText (py "alpha");
                 py "data/raw/x.com/case_study_02.html" := FText [];
                 py "data/raw/x.com/case_study_03.html" := FText (py " beta ");
                 py "data/raw/x.com/case_study_05.html" := FText (py "beyond") ]} |}.

Definition homepage_record (url : pystr) (len : nat) (active : bool) : StdRecord :=
  {| r_website := url; r_section := py "homepage"; r_content := replicate len 120;
     r_crawl_timestamp := py "2026-01-20T10:30:00Z"; r_isActive := active |}.

Definition three_sites : list pystr :=
  [py "https://a.com"; py "https://b.com"; py "https://c.com"].

(** Three processed sites whose homepage contents have the lengths 100, 200
    and 300; the second site is inactive and has an empty footer record. *)
Definition three_sites_fs : filesystem :=
  {| dirs := {[ py "data/processed"; py "data/metrics" ]};
     files :=
       {[ py "data/processed/a.com.json" :=
            FRecords [homepage_record (py "https://a.com") 100 true];
          py "data/processed/b.com.json" :=
            FRecords [homepage_record (py "https://b.com") 200 false;
                      {| r_website := py "https://b.com"; r_section := py "footer";
                         r_content := [];
                         r_crawl_timestamp := py "2026-01-20T10:30:00Z";
                         r_isActive := false |}];
          py "data/processed/c.com.json" :=
            FRecords [homepage_record (py "https://c.com") 300 true] ]} |}.

(** A code point that [clean_text] neither rewrites nor removes. *)
Definition is_visible (c : Z) : Prop := is_space c = false ∧ is_zero_width c = false.

(** The visible code points of a text, in order. *)
Definition visible (s : pystr) : pystr := filter is_visible s.

(** [u.startswith(('http://', 'https://'))] *)
Definition is_http (u : pystr) : bool :=
  startswith (py "http://") u || startswith (py "https://") u.

(** ** dags/website_crawler_dag.py: the task functions

    Each task calls one stage with the container paths and the run's
    [execution_date] and drops the returned summary; [None] stands for a task
    that raises. *)

Definition RAW_DIR : pystr := py "/opt/airflow/data/raw".
Definition PROCESSED_DIR : pystr := py "/opt/airflow/data/processed".
Definition METRICS_DIR : pystr := py "/opt/airflow/data/metrics".

Definition crawl_single (L : PyLib) (net : network) (utcnow url execution_date : pystr)
    (w : world) : world :=
  (crawl_website L net utcnow url RAW_DIR (Some execution_date)
     MAX_CASE_STUDY_PAGES MAX_INTERNAL_PAGES w).1.

Definition extract_single (L : PyLib) (utcnow url execution_date : pystr)
    (fs : filesystem) : option filesystem :=
  fst <$> extract_and_tag L utcnow url RAW_DIR (Some execution_date) fs.

Definition transform_single (L : PyLib) (utcnow url execution_date : pystr)
    (fs : filesystem) : option filesystem :=
  match transform_to_standard L utcnow url RAW_DIR PROCESSED_DIR
          (Some execution_date) fs with
  | (_, TransformRaised) => None
  | (fs', _) => Some fs'
  end.

Definition aggregate_all (L : PyLib) (utcnow : pystr) (websites : list pystr)
    (execution_date : pystr) (fs : filesystem) : option filesystem :=
  match compute_and_save_metrics L utcnow websites PROCESSED_DIR METRICS_DIR
          (Some execution_date) fs with
  | (_, AggregateRaised) => None
  | (fs', _) => Some fs'
  end.

(** The activity flag of the first stored record of a site, if any. *)
Definition first_flag (fs : filesystem) (processed_base_dir url : pystr) : option bool :=
  r_isActive <$> head (stored_records fs processed_base_dir url).

(** The sum of the per-section record counts of a Summary. *)
Definition total_count (stats : gmap pystr SectionStats) : nat :=
  sum_list_with (λ kv, st_count kv.2) (map_to_list stats).

(** A homepage whose second link carries a fragment. *)
Definition fragment_homepage : pystr :=
  py "<a href='/about'>About</a> <a href='/about#team'>Team</a> <a href='/blog'>Blog</a>".

Definition demo_date : pystr := py "2026-01-20T00:00:00".

(** A later reading of the clock. *)
Definition demo_later : pystr := py "2026-01-21T08:00:00".

(** The data directories of the container before the first run. *)
Definition container_world : world :=
  {| w_fs := {| dirs := {[ PROCESSED_DIR; METRICS_DIR ]}; files := ∅ |}; w_log := [] |}.

(** The runs of the examples. *)
Definition gap_run : world * crawl_result :=
  crawl_website demo_lib gap_net demo_now demo_url (py "data/raw") None
    MAX_CASE_STUDY_PAGES MAX_INTERNAL_PAGES empty_world.

Definition pages_extracted_fs : filesystem :=
  from_option fst pages_fs
    (extract_and_tag demo_lib demo_now demo_url (py "data/raw") None pages_fs).

Definition crawled_transform : filesystem * transform_result :=
  transform_to_standard demo_lib demo_now demo_url (py "data/raw") (py "data/processed")
    None crawled_fs.

Definition three_sites_metrics : Summary :=
  compute_metrics demo_lib (py "2026-01-20T10:30:00Z")
    (default {| all_records := []; website_active_status := ∅ |}
       (load_processed three_sites_fs (py "data/processed") three_sites
          {| all_records := []; website_active_status := ∅ |})).

(** * Properties *)

(** ** Text cleaning *)

Section Cleaning.
Lemma lstrip_starts_clean s : starts_clean (lstrip s).
Proof.
  induction s as [|c s IH]; simpl; [done|].
  destruct (is_space c) eqn:E; [done | exact E].
Qed.

Lemma lstrip_id s : starts_clean s → lstrip s = s.
Proof. destruct s as [|c s]; simpl; [done|]. by intros ->. Qed.

Lemma lstrip_snoc w c :
  is_space c = false → ∃ w', lstrip (w ++ [c]) = w' ++ [c].
Proof.
  intros Hc. induction w as [|d w IH]; simpl.
  - exists []. by rewrite Hc.
  - destruct (is_space d); [done|]. by exists (d :: w).
Qed.

Lemma rstrip_ends_clean s : ends_clean (rstrip s).
Proof.
  unfold ends_clean, rstrip. rewrite reverse_involutive. apply lstrip_starts_clean.
Qed.

Lemma rstrip_id s : ends_clean s → rstrip s = s.
Proof.
  unfold ends_clean, rstrip. intros H. by rewrite lstrip_id, reverse_involutive.
Qed.

Lemma rstrip_starts_clean s : starts_clean s → starts_clean (rstrip s).
Proof.
  destruct s as [|c s]; [done|]. simpl. intros Hc. unfold rstrip.
  rewrite reverse_cons. destruct (lstrip_snoc (reverse s) c Hc) as [w' ->].
  by rewrite reverse_app.
Qed.

Lemma strip_clean s : starts_clean (strip s) ∧ ends_clean (strip s).
Proof.
  split; [apply rstrip_starts_clean, lstrip_starts_clean | apply rstrip_ends_clean].
Qed.

Lemma strip_id s : starts_clean s → ends_clean s → strip s = s.
Proof. intros H1 H2. unfold strip. by rewrite (lstrip_id s H1), rstrip_id. Qed.

Lemma sub_ws_idem s : ∀ b, sub_ws b (sub_ws b s) = sub_ws b s.
Proof.
  induction s as [|c s IH]; intros b; simpl; [done|].
  destruct (is_space c) eqn:E.
  - destruct b; [apply IH|]. simpl. by rewrite IH.
  - simpl. by rewrite E, IH.
Qed.

Lemma sub_ws_starts_clean s b :
  b = true ∨ starts_clean s → starts_clean (sub_ws b s).
Proof.
  revert b. induction s as [|c s IH]; intros b Hb; simpl; [done|].
  destruct (is_space c) eqn:E; [|exact E].
  destruct Hb as [-> | Hc]; [apply IH; by left|].
  simpl in Hc. congruence.
Qed.

Lemma sub_ws_snoc s c :
  is_space c = false → ∀ b, ∃ w, sub_ws b (s ++ [c]) = w ++ [c].
Proof.
  intros Hc. induction s as [|d s IH]; intros b; simpl.
  - exists []. by rewrite Hc.
  - destruct (is_space d).
    + destruct b; [apply IH|]. destruct (IH true) as [w ->]. by exists (32 :: w).
    + destruct (IH false) as [w ->]. by exists (d :: w).
Qed.

Lemma sub_ws_ends_clean s b : ends_clean s → ends_clean (sub_ws b s).
Proof.
  unfold ends_clean. destruct (reverse s) as [|c r] eqn:Hrev.
  - apply (f_equal reverse) in Hrev. rewrite reverse_involutive in Hrev.
    by rewrite Hrev.
  - simpl. intros Hc. apply (f_equal reverse) in Hrev.
    rewrite reverse_involutive, reverse_cons in Hrev. rewrite Hrev.
    destruct (sub_ws_snoc (reverse r) c Hc b) as [w ->].
    by rewrite reverse_app.
Qed.

Lemma has_whitespace_run_cons c d s :
  has_whitespace_run (c :: d :: s)
  = (is_space c && is_space d) || has_whitespace_run (d :: s).
Proof. reflexivity. Qed.

(** The whitespace substitution leaves no two neighbouring whitespace
    code points. *)
Lemma sub_ws_no_run s : ∀ b, has_whitespace_run (sub_ws b s) = false.
Proof.
  induction s as [|c s IH]; intros b; [done|]. simpl.
  destruct (is_space c) eqn:E.
  - destruct b; [apply IH|].
    pose proof (sub_ws_starts_clean s true (or_introl eq_refl)) as Hhd.
    specialize (IH true). destruct (sub_ws true s) as [|d t]; [done|].
    simpl in Hhd. by rewrite has_whitespace_run_cons, Hhd, andb_false_r, IH.
  - specialize (IH false). destruct (sub_ws false s) as [|d t]; [done|].
    by rewrite has_whitespace_run_cons, E, IH.
Qed.

Lemma sub_zero_width_id s :
  (∀ c, c ∈ s → is_zero_width c = false) → sub_zero_width s = s.
Proof.
  intros H. unfold sub_zero_width. induction s as [|c s IHs]; [done|].
  rewrite filter_cons, decide_True by (apply H; by left).
  f_equal. apply IHs. intros d Hd. apply H. by right.
Qed.

Lemma elem_of_lstrip c s : c ∈ lstrip s → c ∈ s.
Proof.
  induction s as [|d s IH]; simpl; [done|].
  destruct (is_space d); [|done]. intros H. right. by apply IH.
Qed.

Lemma elem_of_strip c s : c ∈ strip s → c ∈ s.
Proof.
  unfold strip, rstrip. rewrite elem_of_reverse. intros H%elem_of_lstrip.
  rewrite elem_of_reverse in H. by apply elem_of_lstrip.
Qed.

Lemma elem_of_sub_ws c s b : c ∈ sub_ws b s → c = 32 ∨ c ∈ s.
Proof.
  revert b. induction s as [|d s IH]; intros b; simpl.
  - by intros H%elem_of_nil.
  - destruct (is_space d).
    + destruct b.
      * intros [?|?]%IH; [by left | right; by right].
      * intros [-> | [?|?]%IH]%elem_of_cons; [by left | by left | right; by right].
    + intros [-> | [?|?]%IH]%elem_of_cons; [right; by left | by left | right; by right].
Qed.

(** The output of the cleaning holds no zero-width code point. *)
Lemma clean_text_no_zero_width text c :
  c ∈ clean_text text → is_zero_width c = false.
Proof.
  unfold clean_text, sub_zero_width. destruct text; [by intros H%elem_of_nil|].
  by intros [? _]%list_elem_of_filter.
Qed.

(** On a text without zero-width code points the cleaning is idempotent
    and leaves no whitespace run. *)
Lemma clean_text_without_zero_width text :
  (∀ c, c ∈ text → is_zero_width c = false) →
  clean_text (clean_text text) = clean_text text
  ∧ has_whitespace_run (clean_text text) = false.
Proof.
  intros Hzw. destruct text as [|c0 t0]; [done|].
  set (text := c0 :: t0) in *.
  assert (∀ c, c ∈ sub_ws false (strip text) → is_zero_width c = false) as Hzw'.
  { intros c [-> | Hc%elem_of_strip]%elem_of_sub_ws; [done | by apply Hzw]. }
  assert (clean_text text = sub_ws false (strip text)) as Hclean
    by (by apply sub_zero_width_id).
  rewrite Hclean. split; [|apply sub_ws_no_run].
  destruct (strip_clean text) as [Hs He].
  unfold clean_text. destruct (sub_ws false (strip text)) as [|c1 t1] eqn:Ho; [done|].
  rewrite <- Ho in *. rewrite strip_id.
  - rewrite sub_ws_idem. by apply sub_zero_width_id.
  - apply sub_ws_starts_clean. by right.
  - by apply sub_ws_ends_clean.
Qed.
End Cleaning.



(** ** Transform stage *)

Section Transform.
Context (L : PyLib).

Lemma has_content_spec (secs : gmap pystr pystr) :
  has_content secs = true ↔ ∃ k c, secs !! k = Some c ∧ c ≠ [].
Proof.
  unfold has_content. rewrite existsb_exists. split.
  - intros (c & Hin & Hlen). apply list_elem_of_In in Hin.
    apply list_elem_of_fmap in Hin as ([k c'] & -> & Hkc).
    apply elem_of_map_to_list in Hkc. exists k, c'. split; [done|].
    simpl in Hlen. destruct c'; [done | discriminate].
  - intros (k & c & Hk & Hc). exists c. split.
    + apply list_elem_of_In, list_elem_of_fmap. exists (k, c). split; [done|].
      by apply elem_of_map_to_list.
    + destruct c; [done | reflexivity].
Qed.

Lemma homepage_status_200 (m : CrawlMetadata) :
  homepage_status m = 200 ↔
  ∃ p, pages m !! py "homepage" = Some p ∧ page_status p = 200.
Proof.
  unfold homepage_status. destruct (pages m !! py "homepage") as [p|].
  - split; [intros H; by exists p | intros (p' & [= <-] & H); done].
  - split; [discriminate | intros (p' & [=] & _)].
Qed.

Lemma build_records_fields url ts active secs r :
  r ∈ build_records url ts active secs →
  r_website r = url ∧ r_crawl_timestamp r = ts ∧ r_isActive r = active
  ∧ secs !! r_section r = Some (r_content r).
Proof.
  unfold build_records. intros ([k c] & -> & Hkc)%list_elem_of_fmap. simpl.
  by apply elem_of_map_to_list in Hkc.
Qed.

Lemma build_records_sections url ts active secs :
  r_section <$> build_records url ts active secs = (map_to_list secs).*1.
Proof.
  unfold build_records. rewrite <- list_fmap_compose. by apply list_fmap_ext.
Qed.

Lemma build_records_complete url ts active secs k c :
  secs !! k = Some c →
  ∃ r, r ∈ build_records url ts active secs ∧ r_section r = k ∧ r_content r = c.
Proof.
  intros Hk. eexists {| r_section := k; r_content := c |}. split; [|done].
  unfold build_records. apply list_elem_of_fmap. exists (k, c). split; [reflexivity|].
  by apply elem_of_map_to_list.
Qed.

(** C3: with the section map and the crawl metadata on disk, the transform
    builds its record list and then either stores it and succeeds, when the
    record file can be opened for writing, or raises and leaves the files as
    they are, when it cannot (its directory is missing).  The flag it
    computes is true exactly when the recorded homepage status is 200 and
    some section has content; the records carry pairwise distinct section
    keys, one for every key of the section map (empty sections included)
    with that section's content, and all of them carry the same flag and the
    same run timestamp. *)
Theorem transform_one_record_per_section utcnow url raw_base_dir processed_base_dir
    execution_date fs extracted metadata :
  let base_dir := path_join raw_base_dir (get_domain L url) in
  let processed_path :=
    path_join processed_base_dir (get_domain L url ++ py ".json") in
  isdir fs base_dir = true →
  files fs !! path_join base_dir (py "extracted.json") = Some (FExtracted extracted) →
  files fs !! path_join base_dir (py "metadata.json") = Some (FMetadata metadata) →
  ∃ records active,
    transform_to_standard L utcnow url raw_base_dir processed_base_dir
      execution_date fs
    = (if writable fs processed_path
       then (write_file processed_path (FRecords records) fs,
             TransformSuccess (length records) processed_path)
       else (fs, TransformRaised))
    ∧ (active = true ↔
         (∃ p, pages metadata !! py "homepage" = Some p ∧ page_status p = 200)
         ∧ (∃ k c, sections extracted !! k = Some c ∧ c ≠ []))
    ∧ (∀ r, r ∈ records →
         r_isActive r = active
         ∧ r_crawl_timestamp r = run_timestamp execution_date utcnow
         ∧ r_website r = url
         ∧ sections extracted !! r_section r = Some (r_content r))
    ∧ NoDup (r_section <$> records)
    ∧ (∀ k c, sections extracted !! k = Some c →
         ∃ r, r ∈ records ∧ r_section r = k ∧ r_content r = c)
    ∧ length records = size (sections extracted).
Proof.
  intros base_dir processed_path Hdir Hex Hmd.
  exists (build_records url (run_timestamp execution_date utcnow)
            (is_active metadata extracted) (sections extracted)),
         (is_active metadata extracted).
  split; [|split; [|split; [|split; [|split]]]].
  - unfold transform_to_standard. fold base_dir. fold processed_path.
    rewrite Hdir. simpl. unfold isfile. rewrite Hex, Hmd.
    rewrite !bool_decide_eq_true_2 by eauto. cbn [andb negb]. unfold open_w.
    by destruct (writable fs processed_path).
  - unfold is_active. rewrite andb_true_iff, Z.eqb_eq.
    by rewrite homepage_status_200, has_content_spec.
  - intros r Hr. apply build_records_fields in Hr as (? & ? & ? & ?). auto.
  - rewrite build_records_sections. apply NoDup_fst_map_to_list.
  - intros k c Hk. by apply build_records_complete.
  - unfold build_records. by rewrite length_fmap, length_map_to_list.
Qed.
End Transform.

(** ** Aggregator: site counters *)

Section Counters.
Context (L : PyLib).

Lemma count_if_partition (l : list bool) :
  (count_if (λ active : bool, active) l + count_if negb l = length l)%nat.
Proof.
  unfold count_if. induction l as [|[] l IH]; simpl; lia.
Qed.

(** The loading loop only adds records and sites. *)
Lemma load_processed_grows fs dir websites acc ld :
  load_processed fs dir websites acc = Some ld →
  (length (all_records acc) ≤ length (all_records ld))%nat
  ∧ dom (website_active_status acc) ⊆ dom (website_active_status ld).
Proof.
  revert acc. induction websites as [|url rest IH]; intros acc Hld; simpl in Hld.
  - injection Hld as <-. split; [lia | set_solver].
  - destruct (files fs !! _) as [[| | |records|]|]; try discriminate.
    + apply IH in Hld as [Hlen Hdom]. simpl in *. split.
      * rewrite length_app in Hlen. lia.
      * destruct records; [done|]. rewrite dom_insert in Hdom.
        intros k Hk. apply Hdom, elem_of_union. by right.
    + exact (IH _ Hld).
Qed.

(** When every stored file of a configured site is a record list, the
    loading loop finishes, and a site with a non-empty list is counted. *)
Lemma load_processed_total fs dir websites acc :
  (∀ url f, url ∈ websites → files fs !! processed_file dir url = Some f →
            ∃ rs, f = FRecords rs) →
  ∃ ld, load_processed fs dir websites acc = Some ld
    ∧ ∀ url r rs, url ∈ websites →
        files fs !! processed_file dir url = Some (FRecords (r :: rs)) →
        url ∈ dom (website_active_status ld) ∧ all_records ld ≠ [].
Proof.
  revert acc. induction websites as [|url rest IH]; intros acc Hwf.
  - exists acc. split; [done|]. intros ? ? ? Hin. by apply elem_of_nil in Hin.
  - simpl. fold (processed_file dir url).
    destruct (files fs !! processed_file dir url) as [f|] eqn:Hf.
    + destruct (Hwf url f) as [records ->]; [left | done |].
      edestruct (IH {| all_records := all_records acc ++ records;
                       website_active_status :=
                         match records with
                         | r :: _ => <[url:=r_isActive r]> (website_active_status acc)
                         | [] => website_active_status acc
                         end |}) as (ld & Hld & Hrest).
      { intros u f' Hu. apply Hwf. by right. }
      exists ld. split; [done|].
      intros u r rs [-> | Hu]%elem_of_cons Hfile.
      * rewrite Hf in Hfile. injection Hfile as ->.
        apply load_processed_grows in Hld as [Hlen Hdom]. simpl in *. split.
        -- apply Hdom. rewrite dom_insert. apply elem_of_union. left.
           by apply elem_of_singleton.
        -- rewrite !length_app in Hlen. simpl in Hlen.
           intros Hnil. rewrite Hnil in Hlen. simpl in Hlen. lia.
      * exact (Hrest u r rs Hu Hfile).
    + edestruct (IH acc) as (ld & Hld & Hrest).
      { intros u f' Hu. apply Hwf. by right. }
      exists ld. split; [done|].
      intros u r rs [-> | Hu]%elem_of_cons Hfile; [congruence|].
      exact (Hrest u r rs Hu Hfile).
Qed.

(** C4: when a configured site has a stored, non-empty record list (and
    the stored files of the configured sites are record lists), the
    aggregation computes a Summary in which the active and the inactive
    sites add up to the processed sites, of which there is at least one; it
    writes and returns this Summary when [summary.json] can be opened for
    writing, and raises without writing when it cannot (the metrics
    directory is missing). *)
Theorem summary_active_plus_inactive utcnow websites processed_base_dir metrics_dir
    execution_date fs :
  (∀ url f, url ∈ websites →
     files fs !! processed_file processed_base_dir url = Some f →
     ∃ rs, f = FRecords rs) →
  (∃ url r rs, url ∈ websites ∧
     files fs !! processed_file processed_base_dir url = Some (FRecords (r :: rs))) →
  ∃ m,
    compute_and_save_metrics L utcnow websites processed_base_dir metrics_dir
      execution_date fs
    = (if writable fs (path_join metrics_dir (py "summary.json"))
       then (write_file (path_join metrics_dir (py "summary.json")) (FSummary m) fs,
             AggregateSuccess m (path_join metrics_dir (py "summary.json")))
       else (fs, AggregateRaised))
    ∧ (active_websites m + inactive_websites m = total_websites_processed m)%nat
    ∧ (1 ≤ total_websites_processed m)%nat.
Proof.
  intros Hwf (url & r & rs & Hurl & Hfile).
  destruct (load_processed_total fs processed_base_dir websites
              {| all_records := []; website_active_status := ∅ |} Hwf)
    as (ld & Hld & Hsites).
  destruct (Hsites url r rs Hurl Hfile) as [Hdom Hne].
  unfold compute_and_save_metrics. rewrite Hld.
  destruct (all_records ld) as [|r0 rs0] eqn:Hall; [done|].
  eexists. split.
  { unfold open_w. destruct (writable fs _); reflexivity. }
  simpl. split.
  - rewrite count_if_partition. by rewrite length_fmap, length_map_to_list.
  - apply elem_of_dom in Hdom as [b Hb].
    assert (size (website_active_status ld) ≠ 0%nat); [|lia].
    intros Hz. apply map_size_empty_inv in Hz. rewrite Hz in Hb.
    by rewrite lookup_empty in Hb.
Qed.
End Counters.

(** ** Link classifier *)

(** Case analysis on every conditional of the goal. *)
Ltac case_conditions :=
  repeat match goal with
         | |- context [if bool_decide ?P then _ else _] =>
             destruct (bool_decide_reflect P)
         | |- context [if ?b then _ else _] => destruct b
         end.

Section LinkClassifier.
Context (L : PyLib).

Lemma classify_links_app url mi acc l1 l2 :
  classify_links L url mi acc (l1 ++ l2)
  = classify_links L url mi acc l1 ≫= λ acc1, classify_links L url mi acc1 l2.
Proof.
  revert acc. induction l1 as [|h l1 IH]; intros acc; simpl; [done|].
  destruct (classify_link L url mi acc h) as [acc'|]; simpl; [apply IH | done].
Qed.

(** An anchor with a keyword in its href leaves the internal list alone. *)
Lemma classify_link_keyword url mi acc h acc' :
  existsb (λ kw, contains kw (str_lower L (strip h))) CASE_STUDY_KEYWORDS = true →
  classify_link L url mi acc h = Some acc' →
  internal_candidates acc' = internal_candidates acc.
Proof.
  unfold classify_link. generalize CASE_STUDY_KEYWORDS as kws. intros kws Hkw.
  destruct (urljoin L url (strip h)) as [full_url|]; simpl; [|discriminate].
  rewrite Hkw.
  case_conditions; by intros [= <-].
Qed.

(** The internal list evolves independently of the case-study list. *)
Lemma classify_link_internal_indep url mi acc h acc' cs :
  classify_link L url mi acc h = Some acc' →
  ∃ acc'',
    classify_link L url mi
      {| case_study_candidates := cs;
         internal_candidates := internal_candidates acc |} h = Some acc''
    ∧ internal_candidates acc'' = internal_candidates acc'.
Proof.
  unfold classify_link.
  destruct (urljoin L url (strip h)) as [full_url|]; simpl; [|discriminate].
  case_conditions; intros [= <-]; eauto.
Qed.

Lemma classify_links_internal_indep url mi hrefs acc acc' cs :
  classify_links L url mi acc hrefs = Some acc' →
  ∃ acc'',
    classify_links L url mi
      {| case_study_candidates := cs;
         internal_candidates := internal_candidates acc |} hrefs = Some acc''
    ∧ internal_candidates acc'' = internal_candidates acc'.
Proof.
  revert acc cs. induction hrefs as [|h rest IH]; intros acc cs; simpl.
  - intros [= <-]. eauto.
  - destruct (classify_link L url mi acc h) as [acc1|] eqn:Hstep; [|discriminate].
    simpl. intros Hrest.
    destruct (classify_link_internal_indep _ _ _ _ _ cs Hstep) as (acc1' & -> & Hint).
    simpl. destruct (IH _ (case_study_candidates acc1') Hrest) as (acc2 & Hacc2 & <-).
    exists acc2. split; [|done]. rewrite <- Hint in Hacc2.
    by destruct acc1'.
Qed.

(** The case-study list never repeats a URL. *)
Lemma classify_link_case_studies_nodup url mi acc h acc' :
  NoDup (case_study_candidates acc) →
  classify_link L url mi acc h = Some acc' →
  NoDup (case_study_candidates acc').
Proof.
  intros Hnd. unfold classify_link.
  destruct (urljoin L url (strip h)) as [full_url|]; simpl; [|discriminate].
  case_conditions; intros [= <-]; simpl; try done.
  apply NoDup_app. split; [done|]. split; [|apply NoDup_singleton].
  intros x Hx ->%list_elem_of_singleton. contradiction.
Qed.

Lemma link_classifier_case_studies_nodup url html mi acc :
  link_classifier L url html mi = Some acc →
  NoDup (case_study_candidates acc).
Proof.
  unfold link_classifier.
  assert (NoDup (case_study_candidates no_candidates)) as Hinit by constructor.
  revert Hinit. generalize no_candidates as acc0.
  induction (find_all_a_href L html) as [|h rest IH]; intros acc0 Hnd; simpl.
  - by intros [= <-].
  - destruct (classify_link L url mi acc0 h) as [acc1|] eqn:Hstep; [|discriminate].
    simpl. apply IH. by eapply classify_link_case_studies_nodup.
Qed.

(** C7: an anchor whose lowercased href contains [case-study] adds
    nothing to the internal candidates: the step that visits it leaves the
    list as it was, whatever its resolved URL, and the list at the end of
    the loop is the one the remaining anchors alone produce. *)
Theorem case_study_anchor_never_internal url html max_internal before h after acc :
  find_all_a_href L html = before ++ h :: after →
  contains (py "case-study") (str_lower L (strip h)) = true →
  link_classifier L url html max_internal = Some acc →
  (∃ acc1 acc2,
     classify_links L url max_internal no_candidates before = Some acc1
     ∧ classify_link L url max_internal acc1 h = Some acc2
     ∧ internal_candidates acc2 = internal_candidates acc1)
  ∧ (∃ acc',
     classify_links L url max_internal no_candidates (before ++ after) = Some acc'
     ∧ internal_candidates acc' = internal_candidates acc).
Proof.
  intros Hhrefs Hcs. unfold link_classifier. rewrite Hhrefs.
  assert (existsb (λ kw, contains kw (str_lower L (strip h))) CASE_STUDY_KEYWORDS = true)
    as Hkw by (simpl; by rewrite Hcs).
  rewrite classify_links_app.
  destruct (classify_links L url max_internal no_candidates before) as [acc1|] eqn:Hbefore;
    [|discriminate].
  simpl.
  destruct (classify_link L url max_internal acc1 h) as [acc2|] eqn:Hstep; [|discriminate].
  simpl. intros Hafter.
  pose proof (classify_link_keyword _ _ _ _ _ Hkw Hstep) as Hint.
  split; [by exists acc1, acc2|].
  rewrite classify_links_app, Hbefore. simpl.
  destruct (classify_links_internal_indep _ _ _ _ _ (case_study_candidates acc1) Hafter)
    as (acc' & Hacc' & Heq).
  exists acc'. split; [|done]. rewrite Hint in Hacc'. by destruct acc1.
Qed.
End LinkClassifier.

(** ** Paths *)

Section Paths.
(** A relative name is appended to a prefix that depends on the directory
    only. *)
Lemma path_join_prefix (a : pystr) :
  ∃ pre, ∀ n, startswith (py "/") n = false → path_join a n = pre ++ n.
Proof.
  unfold path_join. destruct a as [|c a].
  - exists []. intros n ->. reflexivity.
  - destruct (endswith (py "/") (c :: a)).
    + exists (c :: a). intros n ->. reflexivity.
    + exists ((c :: a) ++ py "/"). intros n ->. by rewrite <- app_assoc.
Qed.

Lemma path_join_inj (a n1 n2 : pystr) :
  startswith (py "/") n1 = false → startswith (py "/") n2 = false →
  path_join a n1 = path_join a n2 → n1 = n2.
Proof.
  intros H1 H2. destruct (path_join_prefix a) as [pre Hpre].
  rewrite (Hpre n1 H1), (Hpre n2 H2). apply app_inv_head.
Qed.

Lemma path_join_ne (a n1 n2 : pystr) :
  startswith (py "/") n1 = false → startswith (py "/") n2 = false →
  n1 ≠ n2 → path_join a n1 ≠ path_join a n2.
Proof. intros H1 H2 Hne Heq. by apply Hne, (path_join_inj a). Qed.
End Paths.

(** ** Site crawler *)

Section Crawler.
Context (L : PyLib).

(** C5, as amended: a homepage answer with a status other than 200 ends
    the crawl as [partial] with the reason [homepage_] followed by the
    status in decimal; the response body is dropped and an empty
    [homepage.html] is written; the metadata, returned and not written,
    records the homepage with that status and size 0; the request log grows
    by the homepage request alone, so nothing else was fetched. *)
Theorem non_200_homepage_is_partial (net : network) utcnow url raw_base_dir
    execution_date max_case_studies max_internal w status text :
  let base_dir := path_join raw_base_dir (get_domain L url) in
  let timestamp := run_timestamp execution_date utcnow in
  net (w_log w) url = Response status text →
  status ≠ 200 →
  crawl_website L net utcnow url raw_base_dir execution_date
    max_case_studies max_internal w
  = ({| w_fs := write_file (path_join base_dir (py "homepage.html")) (FText [])
                  (makedirs base_dir (w_fs w));
        w_log := w_log w ++ [url] |},
     CrawlStopped (py "partial") (py "homepage_" ++ str_of_int status)
       {| website := url; domain := get_domain L url;
          crawl_timestamp := timestamp;
          pages := {[ py "homepage" := PageFetched url status 0 timestamp ]} |}).
Proof.
  intros base_dir timestamp Hnet Hstatus. unfold crawl_website. rewrite Hnet.
  destruct (status =? 200) eqn:E; [lia|]. reflexivity.
Qed.

(** A crawl that stops early never touches [metadata.json], creates the
    site directory, and reports [failed] or [partial]. *)
Lemma stopped_crawl_keeps_metadata_file (net : network) utcnow url raw_base_dir
    execution_date max_case_studies max_internal w w' st reason md :
  let base_dir := path_join raw_base_dir (get_domain L url) in
  crawl_website L net utcnow url raw_base_dir execution_date
    max_case_studies max_internal w = (w', CrawlStopped st reason md) →
  files (w_fs w') !! path_join base_dir (py "metadata.json")
  = files (w_fs w) !! path_join base_dir (py "metadata.json")
  ∧ isdir (w_fs w') base_dir = true
  ∧ (st = py "failed" ∨ st = py "partial")
  ∧ website md = url ∧ is_Some (pages md !! py "homepage").
Proof.
  intros base_dir. unfold crawl_website. fold base_dir.
  assert (path_join base_dir (py "homepage.html") ≠ path_join base_dir (py "metadata.json"))
    as Hne by (by apply path_join_ne).
  assert (∀ fs, isdir (makedirs base_dir fs) base_dir = true) as Hdir.
  { intros fs. unfold isdir, makedirs. simpl. apply bool_decide_eq_true_2. set_solver. }
  destruct (net (w_log w) url) as [status text|e].
  - destruct (status =? 200); simpl.
    + destruct (link_classifier L url text max_internal); [discriminate|].
      intros [= <- <- <- <-]. simpl. rewrite lookup_insert_ne by done.
      split_and!; auto;
        first [exact (Hdir (w_fs w)) | eexists; apply lookup_singleton_eq].
    + intros [= <- <- <- <-]. simpl. rewrite lookup_insert_ne by done.
      split_and!; auto;
        first [exact (Hdir (w_fs w)) | eexists; apply lookup_singleton_eq].
  - intros [= <- <- <- <-]. simpl.
    split_and!; auto;
        first [exact (Hdir (w_fs w)) | eexists; apply lookup_singleton_eq].
Qed.

(** A successful crawl writes the metadata document. *)
Lemma successful_crawl_writes_metadata (net : network) utcnow url raw_base_dir
    execution_date max_case_studies max_internal w w' n p :
  crawl_website L net utcnow url raw_base_dir execution_date
    max_case_studies max_internal w = (w', CrawlSuccess n p) →
  p = path_join (path_join raw_base_dir (get_domain L url)) (py "metadata.json")
  ∧ ∃ md, files (w_fs w') !! p = Some (FMetadata md).
Proof.
  unfold crawl_website.
  destruct (net (w_log w) url) as [status text|e]; [|discriminate].
  destruct (status =? 200); simpl; [|discriminate].
  destruct (link_classifier L url text max_internal); [|discriminate].
  intros [= <- <- <-]. split; [done|]. simpl. eexists. apply lookup_insert_eq.
Qed.

(** The extraction stage leaves [metadata.json] and the directories as
    they are. *)
Lemma extract_keeps_metadata_file utcnow url raw_base_dir execution_date fs fs' r :
  let base_dir := path_join raw_base_dir (get_domain L url) in
  extract_and_tag L utcnow url raw_base_dir execution_date fs = Some (fs', r) →
  files fs' !! path_join base_dir (py "metadata.json")
  = files fs !! path_join base_dir (py "metadata.json")
  ∧ dirs fs' = dirs fs.
Proof.
  intros base_dir. unfold extract_and_tag. fold base_dir.
  destruct (isdir fs base_dir); cbn [negb]; [|by intros [= <- <-]].
  match goal with
  | |- context [scan_case_studies ?a ?b ?c ?d ?e ?f] =>
      destruct (scan_case_studies a b c d e f)
  end; cbn [mbind option_bind]; [|discriminate].
  intros [= <- <-]. cbn [files dirs write_file]. split; [|done].
  apply lookup_insert_ne. by apply path_join_ne.
Qed.

Lemma transform_without_metadata utcnow url raw_base_dir processed_base_dir
    execution_date fs :
  let base_dir := path_join raw_base_dir (get_domain L url) in
  isdir fs base_dir = true →
  files fs !! path_join base_dir (py "metadata.json") = None →
  transform_to_standard L utcnow url raw_base_dir processed_base_dir execution_date fs
  = (fs, TransformSkipped (py "missing_inputs")).
Proof.
  intros base_dir Hdir Hmd. unfold transform_to_standard. fold base_dir.
  rewrite Hdir. simpl. unfold isfile at 2. rewrite Hmd.
  rewrite (bool_decide_eq_false_2 (is_Some None)) by (by intros [? ?]).
  by rewrite andb_false_r.
Qed.

(** C10, as amended: a crawl that ends [failed] or [partial] returns its
    metadata and writes no [metadata.json]; when the site's directory held
    none before the run, it holds none afterwards, and the transform stage,
    run directly or after the extraction stage, reports [skipped] with the
    reason [missing_inputs] and changes nothing. *)
Theorem stopped_crawl_then_transform_skips (net : network) utcnow url raw_base_dir
    processed_base_dir execution_date max_case_studies max_internal w w' st reason md :
  let base_dir := path_join raw_base_dir (get_domain L url) in
  let metadata_path := path_join base_dir (py "metadata.json") in
  crawl_website L net utcnow url raw_base_dir execution_date
    max_case_studies max_internal w = (w', CrawlStopped st reason md) →
  files (w_fs w) !! metadata_path = None →
  (st = py "failed" ∨ st = py "partial")
  ∧ website md = url ∧ is_Some (pages md !! py "homepage")
  ∧ files (w_fs w') !! metadata_path = None
  ∧ transform_to_standard L utcnow url raw_base_dir processed_base_dir
      execution_date (w_fs w')
    = (w_fs w', TransformSkipped (py "missing_inputs"))
  ∧ ∀ fs'' r,
      extract_and_tag L utcnow url raw_base_dir execution_date (w_fs w') = Some (fs'', r) →
      transform_to_standard L utcnow url raw_base_dir processed_base_dir
        execution_date fs''
      = (fs'', TransformSkipped (py "missing_inputs")).
Proof.
  intros base_dir metadata_path Hcrawl Habsent.
  destruct (stopped_crawl_keeps_metadata_file _ _ _ _ _ _ _ _ _ _ _ _ Hcrawl)
    as (Hsame & Hdir & Hst & Hweb & Hpage).
  fold base_dir in Hsame, Hdir. fold metadata_path in Hsame.
  rewrite Habsent in Hsame.
  split_and!; try done.
  - by apply transform_without_metadata.
  - intros fs'' r Hex.
    destruct (extract_keeps_metadata_file _ _ _ _ _ _ _ Hex) as [Hmd Hdirs].
    apply transform_without_metadata.
    + unfold isdir in *. by rewrite Hdirs.
    + etrans; [exact Hmd | exact Hsame].
Qed.
End Crawler.

(** ** Extraction stage *)

Section Numbering.
Lemma nat_of_digits_uint (d : Decimal.uint) (acc : nat) :
  foldl (λ acc c, acc * 10 + Z.to_nat (c - 48))%nat acc (digits_of_uint d)
  = Nat.of_uint_acc d acc.
Proof.
  revert acc. induction d; intros acc; simpl; [done|..];
    rewrite IHd, Nat.tail_mul_spec; f_equal; lia.
Qed.

Lemma nat_of_digits_fmt_02d (n : nat) : nat_of_digits (fmt_02d n) = n.
Proof.
  assert (nat_of_digits (str_of_nat n) = n) as Hstr.
  { unfold nat_of_digits, str_of_nat. rewrite nat_of_digits_uint.
    apply Unsigned.of_to. }
  unfold fmt_02d. destruct (_ <? _)%nat; [|done].
  unfold nat_of_digits in *. simpl. exact Hstr.
Qed.

Lemma case_study_file_inj : Inj (=) (=) case_study_file.
Proof.
  intros i j. unfold case_study_file, case_study_key.
  intros H%app_inv_tail%app_inv_head.
  by rewrite <- (nat_of_digits_fmt_02d i), <- (nat_of_digits_fmt_02d j), H.
Qed.

Lemma case_study_file_relative (i : nat) :
  startswith (py "/") (case_study_file i) = false.
Proof. reflexivity. Qed.

Lemma case_study_path_inj (base_dir : pystr) :
  Inj (=) (=) (λ i, path_join base_dir (case_study_file i)).
Proof.
  intros i j H. apply case_study_file_inj.
  by apply (path_join_inj base_dir); [apply case_study_file_relative..|].
Qed.
End Numbering.

Section Extractor.
Context (L : PyLib).

(** The scan reads the files numbered [i], [i+1], ... up to the first
    missing number and keeps the non-empty texts in that order. *)
Lemma scan_case_studies_spec fs base_dir docs : ∀ fuel i case_content,
  (∀ j f, docs !! j = Some f →
          files fs !! path_join base_dir (case_study_file (i + j)) = Some f) →
  files fs !! path_join base_dir (case_study_file (i + length docs)) = None →
  (length docs < fuel)%nat →
  scan_case_studies L fs base_dir fuel i case_content
  = Some (case_content ++ kept_case_texts L docs).
Proof.
  induction docs as [|f docs IH]; intros fuel i acc Hdocs Hgap Hfuel.
  - destruct fuel as [|fuel]; [simpl in Hfuel; lia|]. simpl in *.
    rewrite Nat.add_0_r in Hgap. rewrite Hgap. by rewrite app_nil_r.
  - destruct fuel as [|fuel]; [simpl in Hfuel; lia|]. simpl.
    pose proof (Hdocs 0%nat f eq_refl) as H0. rewrite Nat.add_0_r in H0. rewrite H0.
    rewrite (IH fuel (S i)).
    + unfold kept_case_texts. rewrite fmap_cons, filter_cons.
      destruct (extract_section_from_html L (read_text L f) (py "case_study"))
        as [|c t] eqn:Htext.
      * by rewrite decide_False by (by intros H).
      * rewrite decide_True by done. by rewrite <- app_assoc.
    + intros j f' Hj. replace (S i + j)%nat with (i + S j)%nat by lia.
      by apply Hdocs.
    + simpl in Hgap. by replace (S i + length docs)%nat with (i + S (length docs))%nat by lia.
    + simpl in Hfuel. lia.
Qed.

(** Consecutively numbered stored pages are no more than the stored
    files. *)
Lemma stored_pages_bound fs base_dir (docs : list file) i :
  (∀ j f, docs !! j = Some f →
          files fs !! path_join base_dir (case_study_file (i + j)) = Some f) →
  (length docs ≤ size (files fs))%nat.
Proof.
  intros Hdocs.
  set (keys := (λ j, path_join base_dir (case_study_file j)) <$> seq i (length docs)).
  assert (NoDup keys) as Hnd.
  { apply NoDup_fmap_2; [apply case_study_path_inj | apply NoDup_seq]. }
  assert (list_to_set keys ⊆ dom (files fs)) as Hsub.
  { intros k Hk. apply elem_of_list_to_set in Hk.
    apply list_elem_of_fmap in Hk as (j & -> & Hj).
    apply elem_of_seq in Hj.
    destruct (lookup_lt_is_Some_2 docs (j - i)) as [f Hf]; [lia|].
    apply elem_of_dom. exists f.
    replace j with (i + (j - i))%nat at 1 by lia. by apply Hdocs. }
  apply subseteq_size in Hsub.
  rewrite size_list_to_set, size_dom in Hsub by done.
  unfold keys in Hsub. by rewrite length_fmap, length_seq in Hsub.
Qed.

Lemma homepage_sections_no_case_study fs homepage_path :
  homepage_sections L fs homepage_path !! py "case_study" = None.
Proof.
  assert (py "homepage" ≠ py "case_study") as H1 by discriminate.
  assert (py "navbar" ≠ py "case_study") as H2 by discriminate.
  assert (py "footer" ≠ py "case_study") as H3 by discriminate.
  unfold homepage_sections.
  destruct (files fs !! homepage_path) as [f|].
  - rewrite lookup_singleton_eq.
    destruct (extract_section_from_html L (read_text L f) (py "homepage")).
    + by rewrite lookup_singleton_ne.
    + by rewrite !lookup_insert_ne, lookup_singleton_ne.
  - by rewrite !lookup_empty.
Qed.

(** C9, as amended: the extraction reads [case_study_01.html],
    [case_study_02.html], ... up to the first missing number, whatever is
    stored beyond it, and succeeds; the section map it writes has the
    [case_study] entry exactly when some page yields a non-empty text, and
    the entry is then those non-empty texts, in page order, joined by single
    spaces; when every page yields the empty text the key is absent. *)
Theorem case_study_section_of_stored_pages utcnow url raw_base_dir execution_date
    fs (docs : list file) :
  let base_dir := path_join raw_base_dir (get_domain L url) in
  let extracted_path := path_join base_dir (py "extracted.json") in
  isdir fs base_dir = true →
  (∀ j f, docs !! j = Some f →
          files fs !! path_join base_dir (case_study_file (S j)) = Some f) →
  files fs !! path_join base_dir (case_study_file (S (length docs))) = None →
  ∃ e,
    extract_and_tag L utcnow url raw_base_dir execution_date fs
    = Some (write_file extracted_path (FExtracted e) fs,
            ExtractSuccess (map_to_list (sections e)).*1 extracted_path)
    ∧ sections e !! py "case_study"
      = match kept_case_texts L docs with
        | [] => None
        | texts => Some (join (py " ") texts)
        end.
Proof.
  intros base_dir extracted_path Hdir Hdocs Hgap.
  unfold extract_and_tag. fold base_dir. fold extracted_path. rewrite Hdir.
  cbn [negb].
  rewrite (scan_case_studies_spec fs base_dir docs _ 1%nat []); try done.
  - cbn [mbind option_bind app].
    set (s2 := homepage_sections L fs (path_join base_dir (py "homepage.html"))).
    exists {| ex_website := url; ex_domain := get_domain L url;
              ex_crawl_timestamp := run_timestamp execution_date utcnow;
              sections := match kept_case_texts L docs with
                          | [] => s2
                          | _ => <[ py "case_study" :=
                                      join (py " ") (kept_case_texts L docs) ]> s2
                          end |}.
    split; [reflexivity|].
    cbn [sections]. destruct (kept_case_texts L docs).
    + apply homepage_sections_no_case_study.
    + apply lookup_insert_eq.
  - pose proof (stored_pages_bound fs base_dir docs 1 Hdocs). lia.
Qed.

(** The scan finishes within one step per stored file plus one. *)
Lemma scan_case_studies_total fs base_dir i0 : ∀ fuel (seen : list file) acc,
  (∀ j f, seen !! j = Some f →
          files fs !! path_join base_dir (case_study_file (i0 + j)) = Some f) →
  (size (files fs) < fuel + length seen)%nat →
  is_Some (scan_case_studies L fs base_dir fuel (i0 + length seen) acc).
Proof.
  induction fuel as [|fuel IH]; intros seen acc Hseen Hfuel.
  - pose proof (stored_pages_bound fs base_dir seen i0 Hseen). lia.
  - simpl.
    destruct (files fs !! path_join base_dir (case_study_file (i0 + length seen)))
      as [f|] eqn:Hf; [|eauto].
    replace (S (i0 + length seen)) with (i0 + length (seen ++ [f]))%nat
      by (rewrite length_app; simpl; lia).
    apply IH.
    + intros j f' Hj. apply lookup_app_Some in Hj as [Hj | [Hlen Hj]].
      * by apply Hseen.
      * apply list_lookup_singleton_Some in Hj as [Hj ->].
        by replace j with (length seen) by lia.
    + rewrite length_app. simpl. lia.
Qed.

(** The extraction stage always finishes. *)
Lemma extract_and_tag_total utcnow url raw_base_dir execution_date fs :
  is_Some (extract_and_tag L utcnow url raw_base_dir execution_date fs).
Proof.
  unfold extract_and_tag.
  destruct (isdir fs _); cbn [negb]; [|eauto].
  destruct (scan_case_studies_total fs
              (path_join raw_base_dir (get_domain L url)) 1
              (S (size (files fs))) [] []) as [cc Hcc].
  - intros j f Hj. by rewrite lookup_nil in Hj.
  - simpl. lia.
  - simpl in Hcc. simpl. rewrite Hcc. cbn [mbind option_bind]. eauto.
Qed.
End Extractor.

(** ** Aggregator: content-length statistics *)

Section Statistics.
Context (L : PyLib).


(** The loading loop gathers the stored record lists of the configured
    sites, in the order of the configuration. *)
Lemma load_processed_records fs dir websites : ∀ acc ld,
  load_processed fs dir websites acc = Some ld →
  all_records ld = all_records acc ++ concat (stored_records fs dir <$> websites).
Proof.
  induction websites as [|url rest IH]; intros acc ld; simpl.
  - intros [= <-]. by rewrite app_nil_r.
  - unfold stored_records at 1.
    destruct (files fs !! processed_file dir url) as [[| | |records|]|];
      try discriminate.
    + intros Hld. rewrite (IH _ _ Hld). simpl. by rewrite <- app_assoc.
    + intros Hld. by rewrite (IH _ _ Hld).
Qed.






End Statistics.

(** ** Text cleaning: what the output keeps *)

Section CleaningOutput.
Lemma elem_of_sub_ws_inv c s b :
  c ∈ sub_ws b s → c = 32 ∨ (c ∈ s ∧ is_space c = false).
Proof.
  revert b. induction s as [|d s IH]; intros b; simpl.
  - by intros H%elem_of_nil.
  - destruct (is_space d) eqn:E.
    + destruct b.
      * intros [?|[? ?]]%IH; [by left | right; split; [by right | done]].
      * intros [-> | [?|[? ?]]%IH]%elem_of_cons;
          [by left | by left | right; split; [by right | done]].
    + intros [-> | [?|[? ?]]%IH]%elem_of_cons;
        [right; split; [by left | done] | by left | right; split; [by right | done]].
Qed.

Lemma visible_lstrip s : visible (lstrip s) = visible s.
Proof.
  unfold visible. induction s as [|c s IH]; simpl; [done|].
  destruct (is_space c) eqn:E; [|done].
  rewrite IH, filter_cons, decide_False; [done|]. intros [H _]. congruence.
Qed.

Lemma visible_strip s : visible (strip s) = visible s.
Proof.
  unfold strip, rstrip.
  assert (∀ t, visible (reverse t) = reverse (visible t)) as Hrev
    by (intros t; apply filter_reverse).
  by rewrite Hrev, visible_lstrip, Hrev, reverse_involutive, visible_lstrip.
Qed.

Lemma visible_sub_ws s : ∀ b, visible (sub_ws b s) = visible s.
Proof.
  unfold visible. induction s as [|c s IH]; intros b; simpl; [done|].
  destruct (is_space c) eqn:E.
  - rewrite (filter_cons _ c), decide_False by (intros [H _]; congruence).
    destruct b; [apply IH|].
    rewrite filter_cons, decide_False by (by intros [H _]). apply IH.
  - rewrite !filter_cons, IH. done.
Qed.

Lemma visible_sub_zero_width s : visible (sub_zero_width s) = visible s.
Proof.
  unfold visible, sub_zero_width. induction s as [|c s IH]; [done|].
  rewrite !filter_cons. destruct (decide (is_zero_width c = false)) as [Hz|Hz].
  - by rewrite filter_cons, IH.
  - rewrite IH, decide_False; [done|]. by intros [_ H].
Qed.

Lemma lstrip_blank s : (∀ c, c ∈ s → is_space c = true) → lstrip s = [].
Proof.
  induction s as [|c s IH]; intros H; simpl; [done|].
  rewrite (H c) by (by left). apply IH. intros d Hd. apply H. by right.
Qed.

(** X1: whatever the input, the cleaned text holds none of the zero-width
    code points U+200B, U+200C, U+200D, U+FEFF. *)
Theorem clean_text_output_has_no_zero_width (text : pystr) :
  Forall (λ c, is_zero_width c = false) (clean_text text).
Proof. apply Forall_forall. intros c. apply clean_text_no_zero_width. Qed.

(** X2: on a text without zero-width code points the cleaning is idempotent
    and its output neither starts nor ends with whitespace nor holds two
    neighbouring whitespace code points. *)
Theorem clean_text_normal_form (text : pystr) :
  (∀ c, c ∈ text → is_zero_width c = false) →
  clean_text (clean_text text) = clean_text text
  ∧ has_whitespace_run (clean_text text) = false
  ∧ starts_clean (clean_text text) ∧ ends_clean (clean_text text).
Proof.
  intros Hzw. destruct (clean_text_without_zero_width text Hzw) as [Hidem Hrun].
  split_and!; [done | done | |].
  - destruct text as [|c0 t0]; [done|]. set (text := c0 :: t0) in *.
    assert (clean_text text = sub_ws false (strip text)) as ->.
    { apply sub_zero_width_id.
      intros c [-> | Hc%elem_of_strip]%elem_of_sub_ws; [done | by apply Hzw]. }
    apply sub_ws_starts_clean. right. apply strip_clean.
  - destruct text as [|c0 t0]; [done|]. set (text := c0 :: t0) in *.
    assert (clean_text text = sub_ws false (strip text)) as ->.
    { apply sub_zero_width_id.
      intros c [-> | Hc%elem_of_strip]%elem_of_sub_ws; [done | by apply Hzw]. }
    apply sub_ws_ends_clean, strip_clean.
Qed.

(** X3: every whitespace code point of the cleaned text is the plain space
    U+0020: tabs, line breaks and the Unicode spaces never survive. *)
Theorem clean_text_whitespace_is_plain_space (text : pystr) :
  Forall (λ c, is_space c = true → c = 32) (clean_text text).
Proof.
  apply Forall_forall. intros c Hc Hsp. unfold clean_text in Hc.
  destruct text as [|c0 t0]; [by apply elem_of_nil in Hc|].
  unfold sub_zero_width in Hc. apply list_elem_of_filter in Hc as [_ Hc].
  apply elem_of_sub_ws_inv in Hc as [-> | [_ Hns]]; [done | congruence].
Qed.

(** X4: the cleaning keeps every code point that is neither whitespace nor
    zero-width, in the original order, and adds none. *)
Theorem clean_text_keeps_visible_text (text : pystr) :
  visible (clean_text text) = visible text.
Proof.
  unfold clean_text. destruct text as [|c0 t0]; [done|].
  by rewrite visible_sub_zero_width, visible_sub_ws, visible_strip.
Qed.

(** X5: a text made of whitespace only is cleaned to the empty text. *)
Theorem clean_text_of_blank_text (text : pystr) :
  (∀ c, c ∈ text → is_space c = true) → clean_text text = [].
Proof.
  intros Hblank. unfold clean_text, strip. destruct text as [|c0 t0]; [done|].
  by rewrite lstrip_blank.
Qed.
End CleaningOutput.

(** ** Link classifier: what the candidate lists hold *)

Section CandidateLists.
Context (L : PyLib).

(** What one visited anchor can do: nothing, or append its resolved URL to
    one of the two lists, under the conditions of that branch. *)
Lemma classify_link_inv url mi acc h acc' :
  classify_link L url mi acc h = Some acc' →
  ∃ u, urljoin L url (strip h) = Some u ∧
    (acc' = acc
     ∨ (is_http u = true ∧ (u ∉ case_study_candidates acc)
        ∧ acc' = {| case_study_candidates := case_study_candidates acc ++ [u];
                    internal_candidates := internal_candidates acc |})
     ∨ (is_http u = true ∧ startswith url u = true ∧ u ≠ url
        ∧ Z.of_nat (length (internal_candidates acc)) < mi
        ∧ acc' = {| case_study_candidates := case_study_candidates acc;
                    internal_candidates := internal_candidates acc ++ [u] |})).
Proof.
  unfold classify_link, is_http. generalize CASE_STUDY_KEYWORDS as kws. intros kws.
  destruct (urljoin L url (strip h)) as [u|]; cbn [mbind option_bind]; [|discriminate].
  intros Hstep. exists u. split; [done|].
  destruct (startswith (py "http://") u || startswith (py "https://") u) eqn:Hhttp;
    cbn [negb] in Hstep; [|left; congruence].
  destruct (contains (py "#") (strip h) || _); [left; congruence|].
  destruct (existsb _ kws).
  - destruct (bool_decide_reflect (u ∈ case_study_candidates acc)); [left; congruence|].
    right. left. split_and!; [done | done | congruence].
  - destruct (startswith url u) eqn:Hpre; cbn [andb] in Hstep; [|left; congruence].
    destruct (bool_decide_reflect (u = url)); cbn [negb] in Hstep; [left; congruence|].
    destruct (Z.of_nat (length (internal_candidates acc)) <? mi) eqn:Hlt;
      [|left; congruence].
    right. right. split_and!; [done | done | done | lia | congruence].
Qed.

(** An invariant of the two lists that every appended URL re-establishes
    holds at the end of the loop. *)
Lemma classify_links_ind (P Q : pystr → Prop) url mi hrefs : ∀ acc acc',
  (∀ h u, h ∈ hrefs → urljoin L url (strip h) = Some u → is_http u = true → P u) →
  (∀ h u, h ∈ hrefs → urljoin L url (strip h) = Some u → is_http u = true →
          startswith url u = true → u ≠ url → Q u) →
  Forall P (case_study_candidates acc) → Forall Q (internal_candidates acc) →
  classify_links L url mi acc hrefs = Some acc' →
  Forall P (case_study_candidates acc') ∧ Forall Q (internal_candidates acc').
Proof.
  induction hrefs as [|h rest IH]; intros acc acc' HP HQ Hcs Hint; simpl.
  - by intros [= <-].
  - destruct (classify_link L url mi acc h) as [acc1|] eqn:Hstep; [|discriminate].
    cbn [mbind option_bind]. apply IH.
    + intros h' u Hh'. apply HP. by right.
    + intros h' u Hh'. apply HQ. by right.
    + apply classify_link_inv in Hstep
        as (u & Hu & [-> | [(Hhttp & _ & ->) | (Hhttp & _ & _ & _ & ->)]]); simpl; try done.
      apply Forall_app. split; [done|]. apply Forall_singleton.
      by apply (HP h u); [left|..].
    + apply classify_link_inv in Hstep
        as (u & Hu & [-> | [(Hhttp & _ & ->) | (Hhttp & Hpre & Hne & _ & ->)]]);
        simpl; try done.
      apply Forall_app. split; [done|]. apply Forall_singleton.
      by apply (HQ h u); [left|..].
Qed.

Lemma classify_links_cap url mi hrefs : ∀ acc acc',
  classify_links L url mi acc hrefs = Some acc' →
  Z.of_nat (length (internal_candidates acc'))
  ≤ Z.max (Z.of_nat (length (internal_candidates acc))) mi.
Proof.
  induction hrefs as [|h rest IH]; intros acc acc'; simpl.
  - intros [= <-]. lia.
  - destruct (classify_link L url mi acc h) as [acc1|] eqn:Hstep; [|discriminate].
    cbn [mbind option_bind]. intros Hrest%IH.
    apply classify_link_inv in Hstep
      as (u & Hu & [-> | [(_ & _ & ->) | (_ & _ & _ & Hlt & ->)]]); simpl in *; try done.
    rewrite length_app in Hrest. simpl in Hrest. lia.
Qed.

(** X6: the internal-candidate list never grows beyond [max_internal]
    entries (none at all for a bound of zero or less). *)
Theorem internal_candidates_within_cap url html max_internal acc :
  link_classifier L url html max_internal = Some acc →
  Z.of_nat (length (internal_candidates acc)) ≤ Z.max 0 max_internal.
Proof. intros H%classify_links_cap. exact H. Qed.

(** X7: every candidate of either list is the URL that [urljoin] resolves
    from the stripped href of some anchor of the document, and begins with
    [http://] or [https://]. *)
Theorem candidates_are_resolved_web_links url html max_internal acc :
  link_classifier L url html max_internal = Some acc →
  Forall (λ u, is_http u = true
               ∧ ∃ h, h ∈ find_all_a_href L html ∧ urljoin L url (strip h) = Some u)
    (case_study_candidates acc ++ internal_candidates acc).
Proof.
  intros Hrun. apply Forall_app.
  apply (classify_links_ind _ _ url max_internal (find_all_a_href L html)
           no_candidates acc); [| |constructor|constructor|exact Hrun].
  - intros h u Hh Hu Hhttp. split; [done|]. by exists h.
  - intros h u Hh Hu Hhttp _ _. split; [done|]. by exists h.
Qed.

(** X8: every internal candidate has the base URL as a prefix and differs
    from it. *)
Theorem internal_candidates_extend_base_url url html max_internal acc :
  link_classifier L url html max_internal = Some acc →
  Forall (λ u, startswith url u = true ∧ u ≠ url) (internal_candidates acc).
Proof.
  intros Hrun.
  apply (classify_links_ind (λ _, True) _ url max_internal (find_all_a_href L html)
           no_candidates acc); [| |constructor|constructor|exact Hrun]; done.
Qed.

(** X9: the case-study candidate list never holds the same resolved URL
    twice, however often the document links it. *)
Theorem case_study_candidates_are_distinct url html max_internal acc :
  link_classifier L url html max_internal = Some acc →
  NoDup (case_study_candidates acc).
Proof. apply link_classifier_case_studies_nodup. Qed.

(** X10: an anchor whose href contains [#], or whose lowercased href
    contains [javascript:], is skipped: both candidate lists are the ones the
    remaining anchors alone produce. *)
Theorem fragment_and_script_links_are_skipped url html max_internal before h after acc :
  find_all_a_href L html = before ++ h :: after →
  contains (py "#") (strip h) = true
  ∨ contains (py "javascript:") (str_lower L (strip h)) = true →
  link_classifier L url html max_internal = Some acc →
  classify_links L url max_internal no_candidates (before ++ after) = Some acc.
Proof.
  intros Hhrefs Hskip. unfold link_classifier. rewrite Hhrefs, !classify_links_app.
  destruct (classify_links L url max_internal no_candidates before) as [acc1|];
    [|discriminate].
  cbn [mbind option_bind classify_links].
  assert (∀ acc2, classify_link L url max_internal acc1 h = Some acc2 → acc2 = acc1)
    as Hsame.
  { unfold classify_link.
    destruct (urljoin L url (strip h)) as [u|]; cbn [mbind option_bind]; [|discriminate].
    assert ((contains (py "#") (strip h)
             || contains (py "javascript:") (str_lower L (strip h))) = true) as ->
      by (destruct Hskip as [-> | ->]; [done | apply orb_true_r]).
    intros acc2. destruct (negb _); congruence. }
  destruct (classify_link L url max_internal acc1 h) as [acc2|] eqn:Hstep; [|discriminate].
  cbn [mbind option_bind]. by rewrite (Hsame acc2 eq_refl).
Qed.
End CandidateLists.

(** ** Site crawler: requests, files and metadata of a run *)

Section CrawlRun.
Context (L : PyLib).

Lemma case_study_key_inj : Inj (=) (=) case_study_key.
Proof.
  intros i j. unfold case_study_key. intros H%app_inv_head.
  by rewrite <- (nat_of_digits_fmt_02d i), <- (nat_of_digits_fmt_02d j), H.
Qed.

Lemma case_study_key_not_homepage i : case_study_key i ≠ py "homepage".
Proof. discriminate. Qed.

(** The fetch loop sends one request per candidate, in order. *)
Lemma fetch_case_studies_log (net : network) bd ts cands : ∀ i st,
  c_log (fetch_case_studies net bd ts i cands st) = c_log st ++ cands.
Proof.
  induction cands as [|u rest IH]; intros i st; simpl; [by rewrite app_nil_r|].
  rewrite IH.
  destruct (net (c_log st) u) as [code text|e]; [destruct (code =? 200)|];
    simpl; by rewrite <- app_assoc.
Qed.

(** What the fetch loop leaves alone. *)
Lemma fetch_case_studies_frame (net : network) bd ts cands : ∀ i st,
  let res := fetch_case_studies net bd ts i cands st in
  dirs (c_fs res) = dirs (c_fs st)
  ∧ dom (files (c_fs st)) ⊆ dom (files (c_fs res))
  ∧ (∀ p, (∀ j, (i ≤ j)%nat → p ≠ path_join bd (case_study_file j)) →
          files (c_fs res) !! p = files (c_fs st) !! p)
  ∧ (∀ k, (∀ j, (i ≤ j)%nat → k ≠ case_study_key j) →
          c_pages res !! k = c_pages st !! k).
Proof.
  induction cands as [|u rest IH]; intros i st; simpl; [done|].
  match goal with
  | |- context [fetch_case_studies net bd ts (S i) rest ?s] =>
      destruct (IH (S i) s) as (Hd & Hdom & Hf & Hp); set (st' := s) in *
  end.
  assert (dirs (c_fs st') = dirs (c_fs st)) as Hd'.
  { unfold st'. by destruct (net (c_log st) u) as [code text|e]; [destruct (code =? 200)|]. }
  assert (dom (files (c_fs st)) ⊆ dom (files (c_fs st'))) as Hdom'.
  { unfold st'. destruct (net (c_log st) u) as [code text|e]; [destruct (code =? 200)|];
      simpl; try done.
    rewrite dom_insert. apply union_subseteq_r. }
  assert (∀ p, p ≠ path_join bd (case_study_file i) →
               files (c_fs st') !! p = files (c_fs st) !! p) as Hf'.
  { intros p Hp'. unfold st'.
    destruct (net (c_log st) u) as [code text|e]; [destruct (code =? 200)|];
      simpl; try done.
    by rewrite lookup_insert_ne. }
  assert (∀ k, k ≠ case_study_key i → c_pages st' !! k = c_pages st !! k) as Hp'.
  { intros k Hk. unfold st'.
    destruct (net (c_log st) u) as [code text|e]; [destruct (code =? 200)|];
      simpl; try done.
    by rewrite lookup_insert_ne. }
  split_and!.
  - by rewrite Hd.
  - by etrans.
  - intros p Hne. rewrite Hf by (intros j Hj; apply Hne; lia). apply Hf', Hne. lia.
  - intros k Hne. rewrite Hp by (intros j Hj; apply Hne; lia). apply Hp', Hne. lia.
Qed.

(** What the fetch loop records: an entry per page answered 200, describing
    the stored file, and a counter that follows the entries. *)
Lemma fetch_case_studies_pages (net : network) bd ts cands : ∀ i st,
  (∀ j, (i ≤ j)%nat → c_pages st !! case_study_key j = None) →
  let res := fetch_case_studies net bd ts i cands st in
  (∀ j e, (i ≤ j)%nat → c_pages res !! case_study_key j = Some e →
     ∃ u body, cands !! (j - i)%nat = Some u
       ∧ e = PageFetched u 200 (length body) ts
       ∧ files (c_fs res) !! path_join bd (case_study_file j) = Some (FText body))
  ∧ (size (c_pages res) + c_fetched st = size (c_pages st) + c_fetched res)%nat
  ∧ (c_fetched res ≤ c_fetched st + length cands)%nat.
Proof.
  induction cands as [|u rest IH]; intros i st Hfresh; simpl.
  - split_and!; [|done|lia]. intros j e Hj He. rewrite Hfresh in He by done. discriminate.
  - match goal with
    | |- context [fetch_case_studies net bd ts (S i) rest ?s] => set (st' := s) in *
    end.
    pose proof (fetch_case_studies_frame net bd ts rest (S i) st') as (_ & _ & Hf & Hp).
    assert (∀ j, (S i ≤ j)%nat → c_pages st' !! case_study_key j = None) as Hfresh'.
    { intros j Hj. unfold st'.
      destruct (net (c_log st) u) as [code text|e]; [destruct (code =? 200)|];
        simpl; try (apply Hfresh; lia).
      rewrite lookup_insert_ne by (intros H%case_study_key_inj; lia).
      apply Hfresh. lia. }
    destruct (IH (S i) st' Hfresh') as (Hent & Hsize & Hcount).
    assert (∀ j, (S i ≤ j)%nat → case_study_key i ≠ case_study_key j) as Hkey
      by (intros j Hj H%case_study_key_inj; lia).
    assert (∀ j, (S i ≤ j)%nat →
                 path_join bd (case_study_file i) ≠ path_join bd (case_study_file j))
      as Hpath by (intros j Hj H%case_study_path_inj; lia).
    split_and!.
    + intros j e Hj He. destruct (decide (j = i)) as [->|Hne].
      * rewrite Hp in He by done. rewrite Hf by done.
        rewrite Nat.sub_diag. simpl. exists u. unfold st' in *.
        destruct (net (c_log st) u) as [code text|err];
          [destruct (code =? 200) eqn:E|]; simpl in *;
          try (rewrite Hfresh in He by done; discriminate).
        rewrite lookup_insert_eq in He. rewrite lookup_insert_eq.
        apply Z.eqb_eq in E. subst code. injection He as <-. by exists text.
      * destruct (Hent j e) as (u' & body & Hu' & -> & Hfile); [lia | done |].
        exists u', body. split_and!; [|done|done].
        replace (j - i)%nat with (S (j - S i)) by lia. done.
    + unfold st' in Hsize, Hcount |- *.
      destruct (net (c_log st) u) as [code text|err];
        [destruct (code =? 200)|]; simpl in *; try lia.
      rewrite map_size_insert_None in Hsize by (apply Hfresh; lia). lia.
    + unfold st' in Hsize, Hcount |- *.
      destruct (net (c_log st) u) as [code text|err];
        [destruct (code =? 200)|]; simpl in *; lia.
Qed.

(** Every key the fetch loop adds is a case-study key. *)
Lemma fetch_case_studies_keys (net : network) bd ts cands : ∀ i st k e,
  c_pages (fetch_case_studies net bd ts i cands st) !! k = Some e →
  c_pages st !! k = Some e ∨ ∃ j, k = case_study_key j.
Proof.
  induction cands as [|u rest IH]; intros i st k e; simpl; [by left|].
  intros [Hk | Hk]%IH; [|by right].
  destruct (net (c_log st) u) as [code text|err]; [destruct (code =? 200)|];
    simpl in Hk; try (by left).
  destruct (decide (k = case_study_key i)) as [->|Hne]; [right; by exists i|].
  rewrite lookup_insert_ne in Hk by done. by left.
Qed.

(** The shape of a successful run. *)
Lemma crawl_success_inv (net : network) utcnow url raw_base_dir execution_date
    max_case_studies max_internal w w' n p :
  let base_dir := path_join raw_base_dir (get_domain L url) in
  let timestamp := run_timestamp execution_date utcnow in
  crawl_website L net utcnow url raw_base_dir execution_date
    max_case_studies max_internal w = (w', CrawlSuccess n p) →
  ∃ text cands,
    net (w_log w) url = Response 200 text
    ∧ link_classifier L url text max_internal = Some cands
    ∧ let st := fetch_case_studies net base_dir timestamp 1
                  (slice_to max_case_studies (case_study_candidates cands))
                  {| c_fs := write_file (path_join base_dir (py "homepage.html"))
                               (FText text) (makedirs base_dir (w_fs w));
                     c_log := w_log w ++ [url];
                     c_pages := {[ py "homepage" :=
                                     PageFetched url 200 (length text) timestamp ]};
                     c_fetched := 0 |} in
      p = path_join base_dir (py "metadata.json")
      ∧ n = c_fetched st
      ∧ w' = {| w_fs := write_file p
                          (FMetadata {| website := url; domain := get_domain L url;
                                        crawl_timestamp := timestamp;
                                        pages := c_pages st |})
                          (c_fs st);
                w_log := c_log st |}.
Proof.
  intros base_dir timestamp. unfold crawl_website. fold base_dir timestamp.
  destruct (net (w_log w) url) as [status text|e] eqn:Hnet; [|discriminate].
  destruct (status =? 200) eqn:E; cbn [negb]; [|discriminate].
  apply Z.eqb_eq in E. subst status.
  destruct (link_classifier L url text max_internal) as [cands|] eqn:Hcl; [|discriminate].
  intros [= Hw Hn Hp]. subst w' n p. exists text, cands.
  split_and!; first [assumption | reflexivity].
Qed.

(** X11: when the homepage request fails in transport the crawl ends
    [failed] with the reason [homepage_fetch_error]; the returned metadata
    records the homepage with status 0 and the error text; the site directory
    is created but no file is written, and no other request is sent. *)
Theorem transport_error_fails_crawl (net : network) utcnow url raw_base_dir
    execution_date max_case_studies max_internal w e :
  let base_dir := path_join raw_base_dir (get_domain L url) in
  net (w_log w) url = RequestException e →
  crawl_website L net utcnow url raw_base_dir execution_date
    max_case_studies max_internal w
  = ({| w_fs := makedirs base_dir (w_fs w); w_log := w_log w ++ [url] |},
     CrawlStopped (py "failed") (py "homepage_fetch_error")
       {| website := url; domain := get_domain L url;
          crawl_timestamp := run_timestamp execution_date utcnow;
          pages := {[ py "homepage" := PageError e ]} |})
  ∧ page_status (PageError e) = 0
  ∧ files (makedirs base_dir (w_fs w)) = files (w_fs w).
Proof. intros base_dir Hnet. unfold crawl_website. by rewrite Hnet. Qed.

(** The requests of a run, for every outcome. *)
Lemma crawl_log (net : network) utcnow url raw_base_dir execution_date
    max_case_studies max_internal w :
  let run := crawl_website L net utcnow url raw_base_dir execution_date
               max_case_studies max_internal w in
  match run.2 with
  | CrawlStopped _ _ _ => w_log run.1 = w_log w ++ [url]
  | CrawlSuccess _ _ =>
      ∃ text cands,
        net (w_log w) url = Response 200 text
        ∧ link_classifier L url text max_internal = Some cands
        ∧ w_log run.1
          = w_log w ++ url :: slice_to max_case_studies (case_study_candidates cands)
  end.
Proof.
  intros run. destruct run as [w' [n p|st reason md]] eqn:Hrun; unfold run in Hrun.
  - apply crawl_success_inv in Hrun as (text & cands & Hnet & Hcl & _ & _ & ->).
    exists text, cands. split_and!; [done | done |].
    cbn [fst w_log]. rewrite fetch_case_studies_log. cbn [c_log].
    by rewrite <- app_assoc.
  - unfold crawl_website in Hrun. cbn [fst snd].
    destruct (net (w_log w) url) as [status text|e].
    + destruct (status =? 200); cbn [negb] in Hrun.
      * destruct (link_classifier L url text max_internal); [discriminate|].
        by injection Hrun as <- _ _ _.
      * by injection Hrun as <- _ _ _.
    + by injection Hrun as <- _ _ _.
Qed.


Lemma length_slice_to {A} (n : Z) (l : list A) :
  0 ≤ n → (length (slice_to n l) ≤ Z.to_nat n)%nat.
Proof.
  intros Hn. unfold slice_to. destruct (0 <=? n) eqn:E; [|lia].
  rewrite length_take. lia.
Qed.

(** X13: with a non-negative [max_case_studies], a run sends at most
    [1 + max_case_studies] requests. *)
Theorem crawl_request_count_bounded (net : network) utcnow url raw_base_dir
    execution_date max_case_studies max_internal w :
  0 ≤ max_case_studies →
  (length (w_log (crawl_website L net utcnow url raw_base_dir execution_date
                    max_case_studies max_internal w).1)
   ≤ length (w_log w) + 1 + Z.to_nat max_case_studies)%nat.
Proof.
  intros Hmax.
  pose proof (crawl_log net utcnow url raw_base_dir execution_date
                max_case_studies max_internal w) as Hlog.
  cbv zeta in Hlog.
  destruct (crawl_website _ _ _ _ _ _ _ _ _) as [w' [n p|st reason md]];
    cbn [fst snd] in *.
  - destruct Hlog as (text & cands & _ & _ & ->).
    rewrite length_app. simpl.
    pose proof (length_slice_to max_case_studies (case_study_candidates cands) Hmax).
    lia.
  - rewrite Hlog, length_app. simpl. lia.
Qed.

Lemma case_study_file_is_key_html i : case_study_file i = case_study_key i ++ py ".html".
Proof. reflexivity. Qed.

Lemma homepage_path_not_case_study bd j :
  path_join bd (py "homepage.html") ≠ path_join bd (case_study_file j).
Proof. by apply path_join_ne. Qed.

Lemma metadata_path_not_case_study bd j :
  path_join bd (py "metadata.json") ≠ path_join bd (case_study_file j).
Proof. by apply path_join_ne. Qed.

Lemma crawl_success_metadata (net : network) utcnow url raw_base_dir
    execution_date max_case_studies max_internal w w' n p :
  crawl_website L net utcnow url raw_base_dir execution_date
    max_case_studies max_internal w = (w', CrawlSuccess n p) →
  ∃ md,
    files (w_fs w') !! p = Some (FMetadata md)
    ∧ website md = url
    ∧ crawl_timestamp md = run_timestamp execution_date utcnow
    ∧ homepage_status md = 200
    ∧ size (pages md) = S n
    ∧ (n ≤ length (w_log w') - length (w_log w) - 1)%nat.
Proof.
  intros Hrun.
  apply crawl_success_inv in Hrun as (text & cands & Hnet & Hcl & Hp & Hn & ->).
  match type of Hn with
  | _ = c_fetched (fetch_case_studies ?net ?bd ?ts ?i ?cs ?st) =>
      pose proof (fetch_case_studies_frame net bd ts cs i st) as (_ & _ & _ & Hpages);
      pose proof (fetch_case_studies_pages net bd ts cs i st) as Hrec;
      pose proof (fetch_case_studies_log net bd ts cs i st) as Hlog
  end.
  cbv zeta in Hrec. destruct Hrec as (_ & Hsize & Hcount).
  { intros j _. cbn [c_pages]. apply lookup_singleton_ne.
    intros H. by apply (case_study_key_not_homepage j). }
  cbn [c_pages c_fetched c_log] in *.
  eexists. split_and!.
  - cbn [w_fs files write_file]. apply lookup_insert_eq.
  - reflexivity.
  - reflexivity.
  - unfold homepage_status. cbn [pages].
    rewrite Hpages by (intros j _ H; by apply (case_study_key_not_homepage j)).
    by rewrite lookup_singleton_eq.
  - cbn [pages]. rewrite map_size_singleton in Hsize. lia.
  - cbn [w_log]. rewrite Hlog, !length_app. simpl. lia.
Qed.

(** X14: the metadata document that a successful run writes records the
    homepage with status 200, and holds exactly one entry more than the
    number of case studies the run reports, which is at most the number of
    case-study requests sent. *)
Theorem successful_crawl_metadata (net : network) utcnow url raw_base_dir
    execution_date max_case_studies max_internal w w' n p :
  crawl_website L net utcnow url raw_base_dir execution_date
    max_case_studies max_internal w = (w', CrawlSuccess n p) →
  ∃ md,
    files (w_fs w') !! p = Some (FMetadata md)
    ∧ website md = url
    ∧ crawl_timestamp md = run_timestamp execution_date utcnow
    ∧ homepage_status md = 200
    ∧ size (pages md) = S n
    ∧ (n ≤ length (w_log w') - length (w_log w) - 1)%nat.
Proof. apply crawl_success_metadata. Qed.

Lemma crawl_success_entries (net : network) utcnow url
    raw_base_dir execution_date max_case_studies max_internal w w' n p :
  let base_dir := path_join raw_base_dir (get_domain L url) in
  crawl_website L net utcnow url raw_base_dir execution_date
    max_case_studies max_internal w = (w', CrawlSuccess n p) →
  ∃ md,
    files (w_fs w') !! p = Some (FMetadata md)
    ∧ ∀ k e, pages md !! k = Some e →
        ∃ u body,
          e = PageFetched u 200 (length body) (run_timestamp execution_date utcnow)
          ∧ files (w_fs w') !! path_join base_dir (k ++ py ".html") = Some (FText body).
Proof.
  intros base_dir Hrun.
  apply crawl_success_inv in Hrun as (text & cands & Hnet & Hcl & Hp & Hn & ->).
  fold base_dir in Hp, Hn |- *.
  match type of Hn with
  | _ = c_fetched (fetch_case_studies ?net ?bd ?ts ?i ?cs ?st) =>
      pose proof (fetch_case_studies_frame net bd ts cs i st) as (_ & _ & Hfiles & Hpages);
      pose proof (fetch_case_studies_pages net bd ts cs i st) as Hrec;
      pose proof (fetch_case_studies_keys net bd ts cs i st) as Hkeys
  end.
  cbv zeta in Hrec. destruct Hrec as (Hent & _ & _).
  { intros j _. cbn [c_pages]. apply lookup_singleton_ne.
    intros H. by apply (case_study_key_not_homepage j). }
  cbn [c_pages c_fs] in *.
  eexists. split; [cbn [w_fs files write_file]; apply lookup_insert_eq|].
  cbn [pages w_fs files write_file]. intros k e Hk.
  destruct (Hkeys k e Hk) as [Hhome | [j ->]].
  - apply lookup_singleton_Some in Hhome as [<- <-].
    exists url, text. split; [done|].
    rewrite Hp, lookup_insert_ne by (by apply path_join_ne).
    rewrite Hfiles by (intros j _; apply homepage_path_not_case_study).
    cbn [files write_file]. apply lookup_insert_eq.
  - destruct (decide (1 ≤ j)%nat) as [Hj|Hj].
    + destruct (Hent j e Hj Hk) as (u & body & _ & -> & Hfile).
      exists u, body. split; [done|].
      rewrite Hp, lookup_insert_ne by apply metadata_path_not_case_study.
      exact Hfile.
    + rewrite Hpages in Hk.
      * apply lookup_singleton_Some in Hk as [Hk _].
        exfalso. by apply (case_study_key_not_homepage j).
      * intros j' Hj' H%case_study_key_inj. lia.
Qed.

(** X15: after a successful run every entry of the written metadata, under
    a key [k], describes the stored page [k.html] of the site directory:
    status 200, the run's timestamp, and a size that is the length of the
    stored text. *)
Theorem successful_crawl_entries_describe_files (net : network) utcnow url
    raw_base_dir execution_date max_case_studies max_internal w w' n p :
  let base_dir := path_join raw_base_dir (get_domain L url) in
  crawl_website L net utcnow url raw_base_dir execution_date
    max_case_studies max_internal w = (w', CrawlSuccess n p) →
  ∃ md,
    files (w_fs w') !! p = Some (FMetadata md)
    ∧ ∀ k e, pages md !! k = Some e →
        ∃ u body,
          e = PageFetched u 200 (length body) (run_timestamp execution_date utcnow)
          ∧ files (w_fs w') !! path_join base_dir (k ++ py ".html") = Some (FText body).
Proof. apply crawl_success_entries. Qed.

(** What a run changes in the file system, for every outcome. *)
Lemma crawl_files (net : network) utcnow url raw_base_dir execution_date
    max_case_studies max_internal w :
  let base_dir := path_join raw_base_dir (get_domain L url) in
  let w' := (crawl_website L net utcnow url raw_base_dir execution_date
               max_case_studies max_internal w).1 in
  dirs (w_fs w') = {[ base_dir ]} ∪ dirs (w_fs w)
  ∧ dom (files (w_fs w)) ⊆ dom (files (w_fs w'))
  ∧ ∀ q, q ≠ path_join base_dir (py "homepage.html") →
         q ≠ path_join base_dir (py "metadata.json") →
         (∀ j, q ≠ path_join base_dir (case_study_file j)) →
         files (w_fs w') !! q = files (w_fs w) !! q.
Proof.
  intros base_dir w'.
  destruct (crawl_website L net utcnow url raw_base_dir execution_date
              max_case_studies max_internal w) as [w1 [n p|st reason md]] eqn:Hrun;
    subst w'; cbn [fst].
  - apply crawl_success_inv in Hrun as (text & cands & Hnet & Hcl & Hp & Hn & ->).
    fold base_dir in Hp, Hn |- *.
    match type of Hn with
    | _ = c_fetched (fetch_case_studies ?net ?bd ?ts ?i ?cs ?st) =>
        pose proof (fetch_case_studies_frame net bd ts cs i st) as (Hd & Hdom & Hfiles & _)
    end.
    cbn [c_fs w_fs files dirs write_file makedirs] in *. split_and!.
    + exact Hd.
    + rewrite dom_insert. etrans; [|apply union_subseteq_r].
      etrans; [|exact Hdom]. rewrite dom_insert. apply union_subseteq_r.
    + intros q Hq1 Hq2 Hq3. rewrite Hp, lookup_insert_ne by done.
      rewrite Hfiles by (intros j _; apply Hq3). by rewrite lookup_insert_ne.
  - unfold crawl_website in Hrun. fold base_dir in Hrun.
    destruct (net (w_log w) url) as [status text|e].
    + assert (w1 = {| w_fs := write_file (path_join base_dir (py "homepage.html"))
                                (FText (if status =? 200 then text else []))
                                (makedirs base_dir (w_fs w));
                      w_log := w_log w ++ [url] |}) as ->.
      { destruct (status =? 200); cbn [negb] in Hrun.
        - destruct (link_classifier L url text max_internal); [discriminate|].
          by injection Hrun as <- _ _ _.
        - by injection Hrun as <- _ _ _. }
      cbn [w_fs files dirs write_file makedirs]. split_and!; [done | |].
      * rewrite dom_insert. apply union_subseteq_r.
      * intros q Hq1 _ _. by rewrite lookup_insert_ne.
    + injection Hrun as <- _ _ _. by cbn [w_fs files dirs write_file makedirs].
Qed.

(** X16: a run never removes anything: every file and directory that
    existed before still exists, the site directory exists afterwards, and
    the request log only grows at its end. *)
Theorem crawl_only_adds (net : network) utcnow url raw_base_dir execution_date
    max_case_studies max_internal w :
  let base_dir := path_join raw_base_dir (get_domain L url) in
  let w' := (crawl_website L net utcnow url raw_base_dir execution_date
               max_case_studies max_internal w).1 in
  dom (files (w_fs w)) ⊆ dom (files (w_fs w'))
  ∧ dirs (w_fs w) ⊆ dirs (w_fs w')
  ∧ isdir (w_fs w') base_dir = true
  ∧ w_log w `prefix_of` w_log w'.
Proof.
  intros base_dir w'.
  destruct (crawl_files net utcnow url raw_base_dir execution_date
              max_case_studies max_internal w) as (Hd & Hdom & _).
  fold base_dir w' in Hd, Hdom.
  pose proof (crawl_log net utcnow url raw_base_dir execution_date
                max_case_studies max_internal w) as Hlog.
  cbv zeta in Hlog. fold w' in Hlog.
  split_and!.
  - exact Hdom.
  - rewrite Hd. apply union_subseteq_r.
  - unfold isdir. rewrite Hd. apply bool_decide_eq_true_2, elem_of_union. left.
    by apply elem_of_singleton.
  - destruct (crawl_website _ _ _ _ _ _ _ _ _).2.
    + destruct Hlog as (text & cands & _ & _ & ->). by eexists.
    + rewrite Hlog. by eexists.
Qed.

(** The fetch loop changes no file other than the case-study pages it
    numbers. *)
Lemma fetch_case_studies_writes (net : network) bd ts cands : ∀ i st q,
  files (c_fs (fetch_case_studies net bd ts i cands st)) !! q ≠ files (c_fs st) !! q →
  ∃ j, (i ≤ j < i + length cands)%nat ∧ q = path_join bd (case_study_file j).
Proof.
  induction cands as [|u rest IH]; intros i st q; cbn [fetch_case_studies]; [done|].
  intros Hq.
  destruct (decide (q = path_join bd (case_study_file i))) as [->|Hne].
  { exists i. split; [cbn [length]; lia | done]. }
  match type of Hq with
  | context [fetch_case_studies net bd ts (S i) rest ?s] => set (st' := s) in *
  end.
  assert (files (c_fs st') !! q = files (c_fs st) !! q) as Hsame.
  { unfold st'.
    destruct (net (c_log st) u) as [code text|e]; [destruct (code =? 200)|];
      cbn [c_fs files write_file]; try done.
    by rewrite lookup_insert_ne. }
  rewrite <- Hsame in Hq. destruct (IH _ _ _ Hq) as (j & Hj & ->).
  exists j. split; [cbn [length]; lia | done].
Qed.

Lemma startswith_app (p x : pystr) : startswith p (p ++ x) = true.
Proof.
  induction p as [|c p IH]; [done|]. cbn [startswith app]. by rewrite Z.eqb_refl, IH.
Qed.

(** A name that does not start with a slash is appended to the directory
    prefix [os.path.join(a, "")]. *)
Lemma path_join_relative (a n : pystr) :
  startswith (py "/") n = false → path_join a n = path_join a [] ++ n.
Proof.
  intros Hn. unfold path_join. rewrite Hn. change (startswith (py "/") []) with false.
  destruct a as [|c a]; [done|].
  destruct (endswith (py "/") (c :: a)); [by rewrite app_nil_r|].
  by rewrite app_nil_r, <- app_assoc.
Qed.

(** X17: a run writes inside the site directory only.  A path whose
    content (or absence) differs after the run is [homepage.html],
    [metadata.json] or a numbered case-study page of the site directory; and
    every path that does not begin with the site directory's prefix
    [os.path.join(base_dir, "")] keeps its content, or its absence. *)
Theorem crawl_writes_in_site_directory_only (net : network) utcnow url raw_base_dir
    execution_date max_case_studies max_internal w q :
  let base_dir := path_join raw_base_dir (get_domain L url) in
  let w' := (crawl_website L net utcnow url raw_base_dir execution_date
               max_case_studies max_internal w).1 in
  (files (w_fs w') !! q ≠ files (w_fs w) !! q →
     q = path_join base_dir (py "homepage.html")
     ∨ q = path_join base_dir (py "metadata.json")
     ∨ ∃ j, (1 ≤ j)%nat ∧ q = path_join base_dir (case_study_file j))
  ∧ (startswith (path_join base_dir []) q = false →
     files (w_fs w') !! q = files (w_fs w) !! q).
Proof.
  intros base_dir w'. split.
  - destruct (decide (q = path_join base_dir (py "homepage.html"))) as [|Hhome]; [by left|].
    destruct (decide (q = path_join base_dir (py "metadata.json"))) as [|Hmeta];
      [by right; left|].
    intros Hq. right. right. revert Hq. subst w'.
    destruct (crawl_website L net utcnow url raw_base_dir execution_date
                max_case_studies max_internal w) as [w1 [n p|st reason md]] eqn:Hrun;
      cbn [fst].
    + apply crawl_success_inv in Hrun as (text & cands & _ & _ & Hp & _ & ->).
      fold base_dir in Hp |- *. cbn [w_fs files write_file].
      rewrite Hp, lookup_insert_ne by done. intros Hq.
      destruct (fetch_case_studies_writes net base_dir
                  (run_timestamp execution_date utcnow)
                  (slice_to max_case_studies (case_study_candidates cands)) 1
                  {| c_fs := write_file (path_join base_dir (py "homepage.html"))
                               (FText text) (makedirs base_dir (w_fs w));
                     c_log := w_log w ++ [url];
                     c_pages := {[ py "homepage" :=
                                     PageFetched url 200 (length text)
                                       (run_timestamp execution_date utcnow) ]};
                     c_fetched := 0 |} q) as (j & Hj & ->).
      { cbn [c_fs files write_file makedirs]. by rewrite (lookup_insert_ne _ _ q). }
      exists j. split; [lia | done].
    + intros Hq. exfalso. apply Hq.
      pose proof (crawl_files net utcnow url raw_base_dir execution_date
                    max_case_studies max_internal w) as (_ & _ & Hfiles).
      rewrite Hrun in Hfiles. cbn [fst] in Hfiles. fold base_dir in Hfiles.
      unfold crawl_website in Hrun. fold base_dir in Hrun.
      destruct (net (w_log w) url) as [status text|e].
      * assert (w1 = {| w_fs := write_file (path_join base_dir (py "homepage.html"))
                                  (FText (if status =? 200 then text else []))
                                  (makedirs base_dir (w_fs w));
                        w_log := w_log w ++ [url] |}) as ->.
        { destruct (status =? 200); cbn [negb] in Hrun.
          - destruct (link_classifier L url text max_internal); [discriminate|].
            by injection Hrun as <- _ _ _.
          - by injection Hrun as <- _ _ _. }
        cbn [w_fs files write_file makedirs]. by rewrite lookup_insert_ne.
      * injection Hrun as <- _ _ _. by cbn [w_fs files makedirs].
  - intros Hq.
    destruct (crawl_files net utcnow url raw_base_dir execution_date
                max_case_studies max_internal w) as (_ & _ & Hfiles).
    assert (∀ n, startswith (py "/") n = false → q ≠ path_join base_dir n) as Hout.
    { intros n Hn ->. by rewrite (path_join_relative _ _ Hn), startswith_app in Hq. }
    apply Hfiles; [by apply Hout | by apply Hout | intros j; by apply Hout].
Qed.
End CrawlRun.

(** ** Extraction stage: the section map *)

Section SectionMap.
Context (L : PyLib).

(** The sections taken from the homepage document. *)
Lemma homepage_sections_lookup fs hp k :
  homepage_sections L fs hp !! k
  = match files fs !! hp with
    | None => None
    | Some f =>
        let home := extract_section_from_html L (read_text L f) (py "homepage") in
        if bool_decide (k = py "homepage") then Some home
        else match home with
             | [] => None
             | _ =>
                 if bool_decide (k = py "footer")
                 then Some (extract_section_from_html L (read_text L f) (py "footer"))
                 else if bool_decide (k = py "navbar")
                 then Some (extract_section_from_html L (read_text L f) (py "navbar"))
                 else None
             end
    end.
Proof.
  assert (py "footer" ≠ py "homepage") as H1 by discriminate.
  assert (py "navbar" ≠ py "homepage") as H2 by discriminate.
  assert (py "footer" ≠ py "navbar") as H3 by discriminate.
  unfold homepage_sections. destruct (files fs !! hp) as [f|]; [|by rewrite lookup_empty].
  rewrite lookup_singleton_eq. cbv zeta.
  destruct (extract_section_from_html L (read_text L f) (py "homepage")) as [|c t].
  - rewrite lookup_singleton. by repeat case_bool_decide; case_decide; try congruence.
  - rewrite !lookup_insert, lookup_singleton.
    repeat case_bool_decide; repeat case_decide; congruence.
Qed.

(** The scan keeps non-empty texts only. *)
Lemma scan_case_studies_nonempty fs bd : ∀ fuel i acc cc,
  Forall (λ t, t ≠ []) acc →
  scan_case_studies L fs bd fuel i acc = Some cc →
  Forall (λ t, t ≠ []) cc.
Proof.
  induction fuel as [|fuel IH]; intros i acc cc Hacc; simpl; [discriminate|].
  destruct (files fs !! _) as [f|]; [|by intros [= <-]].
  apply IH. destruct (extract_section_from_html _ _ _) eqn:E; [done|].
  apply Forall_app. split; [done|]. by apply Forall_singleton.
Qed.

Lemma join_nonempty sep (parts : list pystr) :
  parts ≠ [] → Forall (λ t, t ≠ []) parts → join sep parts ≠ [].
Proof.
  destruct parts as [|p rest]; [done|]. intros _ Hall.
  apply Forall_cons in Hall as [Hp _]. simpl.
  destruct rest; [done|]. destruct p; [done|]. discriminate.
Qed.

(** The two outcomes of the extraction. *)
Lemma extract_and_tag_inv utcnow url raw_base_dir execution_date fs fs' r :
  let base_dir := path_join raw_base_dir (get_domain L url) in
  let extracted_path := path_join base_dir (py "extracted.json") in
  extract_and_tag L utcnow url raw_base_dir execution_date fs = Some (fs', r) →
  (isdir fs base_dir = false ∧ fs' = fs ∧ r = ExtractSkipped (py "no_raw_data"))
  ∨ (isdir fs base_dir = true ∧
     ∃ cc,
       scan_case_studies L fs base_dir (S (size (files fs))) 1 [] = Some cc
       ∧ let e := {| ex_website := url; ex_domain := get_domain L url;
                     ex_crawl_timestamp := run_timestamp execution_date utcnow;
                     sections :=
                       match cc with
                       | [] => homepage_sections L fs (path_join base_dir (py "homepage.html"))
                       | _ => <[ py "case_study" := join (py " ") cc ]>
                                (homepage_sections L fs
                                   (path_join base_dir (py "homepage.html")))
                       end |} in
         fs' = write_file extracted_path (FExtracted e) fs
         ∧ r = ExtractSuccess (map_to_list (sections e)).*1 extracted_path).
Proof.
  intros base_dir extracted_path. unfold extract_and_tag.
  fold base_dir. fold extracted_path.
  destruct (isdir fs base_dir); cbn [negb]; [|intros [= <- <-]; by left].
  match goal with
  | |- context [scan_case_studies ?a ?b ?c ?d ?e ?f] =>
      destruct (scan_case_studies a b c d e f) as [cc|] eqn:Hscan
  end; cbn [mbind option_bind]; [|discriminate].
  intros [= <- <-]. right. split; [done|]. by exists cc.
Qed.

Lemma extract_success_keys utcnow url raw_base_dir execution_date fs fs' keys p :
  let base_dir := path_join raw_base_dir (get_domain L url) in
  extract_and_tag L utcnow url raw_base_dir execution_date fs
    = Some (fs', ExtractSuccess keys p) →
  ∃ e,
    files fs' !! p = Some (FExtracted e)
    ∧ keys = (map_to_list (sections e)).*1
    ∧ (∀ k, is_Some (sections e !! k) →
            k ∈ [py "homepage"; py "navbar"; py "footer"; py "case_study"])
    ∧ (is_Some (sections e !! py "homepage")
       ↔ is_Some (files fs !! path_join base_dir (py "homepage.html")))
    ∧ (is_Some (sections e !! py "navbar")
       ↔ ∃ c t, sections e !! py "homepage" = Some (c :: t))
    ∧ (is_Some (sections e !! py "footer")
       ↔ ∃ c t, sections e !! py "homepage" = Some (c :: t)).
Proof.
  intros base_dir Hrun.
  apply extract_and_tag_inv in Hrun as [(_ & _ & [=]) | (_ & cc & _ & Hfs & Hr)].
  fold base_dir in Hfs, Hr. cbv zeta in Hfs, Hr. injection Hr as -> ->. subst fs'.
  eexists. split; [apply lookup_insert_eq|]. split; [reflexivity|]. cbn [sections].
  set (hp := path_join base_dir (py "homepage.html")).
  assert (∀ k, k ≠ py "case_study" →
            match cc with
            | [] => homepage_sections L fs hp
            | _ => <[ py "case_study" := join (py " ") cc ]> (homepage_sections L fs hp)
            end !! k = homepage_sections L fs hp !! k) as Hother.
  { intros k Hk. destruct cc; [done|]. by rewrite lookup_insert_ne. }
  split_and!.
  - intros k Hk. destruct (decide (k = py "case_study")) as [->|Hne].
    { by do 3 right; left. }
    rewrite Hother, homepage_sections_lookup in Hk by done.
    destruct (files fs !! hp) as [f|]; [|by destruct Hk]. cbv zeta in Hk.
    repeat case_bool_decide; subst;
      [by left | by do 2 right; left | by right; left |].
    destruct (extract_section_from_html _ _ _); by destruct Hk.
  - rewrite Hother, homepage_sections_lookup by discriminate.
    destruct (files fs !! hp) as [f|]; [|split; by intros [? ?]].
    rewrite bool_decide_eq_true_2 by done. split; eauto.
  - rewrite !Hother, !homepage_sections_lookup by discriminate.
    destruct (files fs !! hp) as [f|]; [|split; [by intros [? ?] | by intros (? & ? & ?)]].
    cbv zeta. rewrite (bool_decide_eq_true_2 (py "homepage" = py "homepage")) by done.
    rewrite (bool_decide_eq_false_2 (py "navbar" = py "homepage")) by discriminate.
    rewrite (bool_decide_eq_false_2 (py "navbar" = py "footer")) by discriminate.
    rewrite (bool_decide_eq_true_2 (py "navbar" = py "navbar")) by done.
    destruct (extract_section_from_html L (read_text L f) (py "homepage")) as [|c t].
    + split; [by intros [? ?] | by intros (? & ? & ?)].
    + split; eauto.
  - rewrite !Hother, !homepage_sections_lookup by discriminate.
    destruct (files fs !! hp) as [f|]; [|split; [by intros [? ?] | by intros (? & ? & ?)]].
    cbv zeta. rewrite (bool_decide_eq_true_2 (py "homepage" = py "homepage")) by done.
    rewrite (bool_decide_eq_false_2 (py "footer" = py "homepage")) by discriminate.
    rewrite (bool_decide_eq_true_2 (py "footer" = py "footer")) by done.
    destruct (extract_section_from_html L (read_text L f) (py "homepage")) as [|c t].
    + split; [by intros [? ?] | by intros (? & ? & ?)].
    + split; eauto.
Qed.

(** X18: the section map that the extraction writes has no key besides
    [homepage], [navbar], [footer] and [case_study]; it has the [homepage] key
    exactly when [homepage.html] exists, and the [navbar] and the [footer] key
    exactly when the homepage section is a non-empty text. *)
Theorem extracted_section_keys utcnow url raw_base_dir execution_date fs fs' keys p :
  let base_dir := path_join raw_base_dir (get_domain L url) in
  extract_and_tag L utcnow url raw_base_dir execution_date fs
    = Some (fs', ExtractSuccess keys p) →
  ∃ e,
    files fs' !! p = Some (FExtracted e)
    ∧ keys = (map_to_list (sections e)).*1
    ∧ (∀ k, is_Some (sections e !! k) →
            k ∈ [py "homepage"; py "navbar"; py "footer"; py "case_study"])
    ∧ (is_Some (sections e !! py "homepage")
       ↔ is_Some (files fs !! path_join base_dir (py "homepage.html")))
    ∧ (is_Some (sections e !! py "navbar")
       ↔ ∃ c t, sections e !! py "homepage" = Some (c :: t))
    ∧ (is_Some (sections e !! py "footer")
       ↔ ∃ c t, sections e !! py "homepage" = Some (c :: t)).
Proof. apply extract_success_keys. Qed.

(** X19: a [case_study] section, when the extraction writes one, is never
    the empty text. *)
Theorem extracted_case_study_is_nonempty utcnow url raw_base_dir execution_date
    fs fs' keys p :
  extract_and_tag L utcnow url raw_base_dir execution_date fs
    = Some (fs', ExtractSuccess keys p) →
  ∃ e, files fs' !! p = Some (FExtracted e)
       ∧ sections e !! py "case_study" ≠ Some [].
Proof.
  intros Hrun.
  apply extract_and_tag_inv in Hrun as [(_ & _ & [=]) | (_ & cc & Hscan & Hfs & Hr)].
  cbv zeta in Hfs, Hr. injection Hr as -> ->. subst fs'.
  eexists. split; [apply lookup_insert_eq|]. cbn [sections].
  destruct cc as [|t cc'] eqn:Hcc.
  - by rewrite homepage_sections_no_case_study.
  - rewrite lookup_insert_eq. intros [= Hjoin].
    apply scan_case_studies_nonempty in Hscan; [|constructor].
    by apply (join_nonempty (py " ") (t :: cc')).
Qed.

(** X20: the extraction never fails: without the site directory it reports
    [skipped] with the reason [no_raw_data] and changes nothing; with it, even
    when no page at all is stored, it succeeds and writes [extracted.json],
    changing no other file. *)
Theorem extract_and_tag_outcomes utcnow url raw_base_dir execution_date fs :
  let base_dir := path_join raw_base_dir (get_domain L url) in
  let extracted_path := path_join base_dir (py "extracted.json") in
  if isdir fs base_dir
  then ∃ e, extract_and_tag L utcnow url raw_base_dir execution_date fs
            = Some (write_file extracted_path (FExtracted e) fs,
                    ExtractSuccess (map_to_list (sections e)).*1 extracted_path)
            ∧ ex_website e = url
            ∧ ex_crawl_timestamp e = run_timestamp execution_date utcnow
  else extract_and_tag L utcnow url raw_base_dir execution_date fs
       = Some (fs, ExtractSkipped (py "no_raw_data")).
Proof.
  intros base_dir extracted_path. subst base_dir extracted_path.
  destruct (extract_and_tag_total L utcnow url raw_base_dir execution_date fs)
    as [[fs' r] Hrun].
  rewrite Hrun.
  apply extract_and_tag_inv in Hrun
    as [(Hdir & -> & ->) | (Hdir & cc & _ & Hfs & Hr)]; rewrite Hdir; [done|].
  cbv zeta in Hfs, Hr. subst fs' r. eexists. split_and!; reflexivity.
Qed.

(** More fuel does not change a finished scan. *)
Lemma scan_case_studies_fuel fs bd : ∀ fuel i acc cc,
  scan_case_studies L fs bd fuel i acc = Some cc →
  ∀ fuel', (fuel ≤ fuel')%nat → scan_case_studies L fs bd fuel' i acc = Some cc.
Proof.
  induction fuel as [|fuel IH]; intros i acc cc; simpl; [discriminate|].
  intros Hscan [|fuel'] Hle; [lia|]. simpl.
  destruct (files fs !! _) as [f|]; [|done].
  apply (IH _ _ _ Hscan). lia.
Qed.

(** The scan reads the case-study files only. *)
Lemma scan_case_studies_ext fs1 fs2 bd :
  (∀ j, files fs1 !! path_join bd (case_study_file j)
        = files fs2 !! path_join bd (case_study_file j)) →
  ∀ fuel i acc,
    scan_case_studies L fs1 bd fuel i acc = scan_case_studies L fs2 bd fuel i acc.
Proof.
  intros Hsame. induction fuel as [|fuel IH]; intros i acc; simpl; [done|].
  rewrite Hsame. destruct (files fs2 !! _) as [f|]; [|done]. apply IH.
Qed.

(** X21: a second run of the extraction on the files the first run left,
    at whatever clock reading, gives exactly what it gives on the files from
    before the first run: [extracted.json] is recomputed from the raw pages
    alone and replaces the earlier one.  When the run timestamp is the same
    (an execution date is given, or the clock reads the same), the second run
    returns what the first returned and changes nothing. *)
Theorem extract_and_tag_rerun utcnow utcnow' url raw_base_dir execution_date
    fs fs1 r1 :
  extract_and_tag L utcnow url raw_base_dir execution_date fs = Some (fs1, r1) →
  extract_and_tag L utcnow' url raw_base_dir execution_date fs1
  = extract_and_tag L utcnow' url raw_base_dir execution_date fs
  ∧ (is_Some execution_date ∨ utcnow' = utcnow →
     extract_and_tag L utcnow' url raw_base_dir execution_date fs1 = Some (fs1, r1)).
Proof.
  intros Hrun.
  assert (is_Some execution_date ∨ utcnow' = utcnow →
          run_timestamp execution_date utcnow' = run_timestamp execution_date utcnow)
    as Hts.
  { intros [[d ->] | ->]; reflexivity. }
  pose proof Hrun as Hinv.
  apply extract_and_tag_inv in Hinv
    as [(Hdir & -> & ->) | (Hdir & cc & Hscan & Hfs & Hr)].
  { split; [done|]. intros _. unfold extract_and_tag. by rewrite Hdir. }
  cbv zeta in Hfs, Hr.
  set (bd := path_join raw_base_dir (get_domain L url)) in *.
  set (ep := path_join bd (py "extracted.json")) in *.
  set (hp := path_join bd (py "homepage.html")) in *.
  assert (homepage_sections L fs1 hp = homepage_sections L fs hp) as Hhome.
  { unfold homepage_sections. rewrite Hfs. cbn [files write_file].
    rewrite lookup_insert_ne; [done|]. by apply path_join_ne. }
  assert (scan_case_studies L fs1 bd (S (size (files fs1))) 1 [] = Some cc) as Hscan'.
  { rewrite (scan_case_studies_ext fs1 fs).
    - apply (scan_case_studies_fuel _ _ _ _ _ _ Hscan).
      rewrite Hfs. cbn [files write_file]. rewrite map_size_insert.
      destruct (files fs !! ep); simpl; lia.
    - intros j. rewrite Hfs. cbn [files write_file].
      rewrite lookup_insert_ne; [done|]. by apply path_join_ne. }
  assert (∀ doc, write_file ep doc fs1 = write_file ep doc fs) as Hover.
  { intros doc. rewrite Hfs. unfold write_file. cbn [dirs files]. f_equal.
    apply insert_insert_eq. }
  unfold extract_and_tag. fold bd. fold ep. fold hp.
  assert (isdir fs1 bd = true) as -> by (by rewrite Hfs).
  rewrite Hdir. cbn [negb]. rewrite Hscan', Hscan, Hhome. cbn [mbind option_bind].
  rewrite Hover. split; [done|].
  intros Hsame. rewrite (Hts Hsame), Hr. by rewrite <- Hfs.
Qed.
End SectionMap.

(** ** Transform stage and the chain of tasks of one site *)

Section SiteChain.
Context (L : PyLib).

(** What [open] checks does not depend on the files, and only improves
    when directories other than the path itself are added. *)
Lemma writable_write_file fs p q doc :
  writable (write_file q doc fs) p = writable fs p.
Proof. reflexivity. Qed.

Lemma writable_more_dirs fs fs' p :
  (∀ d, d ∈ dirs fs → d ∈ dirs fs') →
  p ∉ dirs fs' →
  writable fs p = true → writable fs' p = true.
Proof.
  intros Hsub Hp. unfold writable, dir_exists, isdir.
  rewrite !andb_true_iff, !orb_true_iff, !negb_true_iff, !bool_decide_eq_true.
  intros [[Hlast Hdir] _]. split_and!; [done| |by apply bool_decide_eq_false_2].
  destruct Hdir as [?|?]; [by left | right; by apply Hsub].
Qed.

(** X22: a second run of the transform on the files the first run left,
    at whatever clock reading, gives exactly what it gives on the files from
    before the first run: the site's records are replaced, never appended to,
    and nothing else of the first run is read back.  When the run timestamp
    is the same (an execution date is given, or the clock reads the same),
    the second run returns what the first returned and changes nothing.  The
    record file is assumed to be neither of the two input files. *)
Theorem transform_to_standard_rerun utcnow utcnow' url raw_base_dir processed_base_dir
    execution_date fs fs1 r1 :
  let base_dir := path_join raw_base_dir (get_domain L url) in
  let processed_path := path_join processed_base_dir (get_domain L url ++ py ".json") in
  processed_path ≠ path_join base_dir (py "extracted.json") →
  processed_path ≠ path_join base_dir (py "metadata.json") →
  transform_to_standard L utcnow url raw_base_dir processed_base_dir execution_date fs
    = (fs1, r1) →
  transform_to_standard L utcnow' url raw_base_dir processed_base_dir execution_date fs1
  = transform_to_standard L utcnow' url raw_base_dir processed_base_dir execution_date fs
  ∧ (is_Some execution_date ∨ utcnow' = utcnow →
     transform_to_standard L utcnow' url raw_base_dir processed_base_dir
       execution_date fs1
     = (fs1, r1)).
Proof.
  intros base_dir processed_path Hne1 Hne2 Hrun.
  assert (is_Some execution_date ∨ utcnow' = utcnow →
          run_timestamp execution_date utcnow' = run_timestamp execution_date utcnow)
    as Hts.
  { intros [[d ->] | ->]; reflexivity. }
  revert Hrun. unfold transform_to_standard. fold base_dir. fold processed_path.
  destruct (isdir fs base_dir) eqn:Hdir; cbn [negb].
  2:{ intros [= <- <-]. by rewrite Hdir. }
  destruct (isfile fs (path_join base_dir (py "extracted.json"))
            && isfile fs (path_join base_dir (py "metadata.json"))) eqn:Hfiles;
    cbn [negb].
  2:{ intros [= <- <-]. by rewrite Hdir, Hfiles. }
  destruct (files fs !! path_join base_dir (py "extracted.json")) as [fe|] eqn:He.
  2:{ intros [= <- <-]. by rewrite Hdir, Hfiles, He. }
  destruct (files fs !! path_join base_dir (py "metadata.json")) as [fm|] eqn:Hm.
  2:{ destruct fe; intros [= <- <-]; rewrite Hdir, Hfiles, ?He, ?Hm; done. }
  destruct fe as [| |extracted| |];
    try (intros [= <- <-]; rewrite Hdir, Hfiles, ?He, ?Hm; done).
  destruct fm as [|metadata| | |];
    try (intros [= <- <-]; rewrite Hdir, Hfiles, ?He, ?Hm; done).
  unfold open_w. destruct (writable fs processed_path) eqn:Hw.
  2:{ intros [= <- <-]. rewrite Hdir, Hfiles, He, Hm, Hw. done. }
  intros [= <- <-].
  set (records := build_records url (run_timestamp execution_date utcnow)
                    (is_active metadata extracted) (sections extracted)).
  assert (isdir (write_file processed_path (FRecords records) fs) base_dir = true)
    as -> by exact Hdir.
  rewrite writable_write_file, Hw.
  cbn [negb]. unfold isfile in *. cbn [files write_file].
  rewrite !lookup_insert_ne by done. rewrite Hfiles, He, Hm. cbn [negb].
  assert (∀ rs, write_file processed_path (FRecords rs)
                  (write_file processed_path (FRecords records) fs)
                = write_file processed_path (FRecords rs) fs) as Hover.
  { intros rs. unfold write_file. cbn [dirs files]. f_equal. apply insert_insert_eq. }
  split.
  - by rewrite Hover.
  - intros Hsame. rewrite (Hts Hsame). fold records. by rewrite Hover.
Qed.

(** The section map of a successful extraction has at most four keys. *)
Lemma extract_success_size utcnow url raw_base_dir execution_date fs fs' keys p e :
  extract_and_tag L utcnow url raw_base_dir execution_date fs
    = Some (fs', ExtractSuccess keys p) →
  files fs' !! p = Some (FExtracted e) →
  (size (sections e) ≤ 4)%nat.
Proof.
  intros Hrun He.
  destruct (extract_success_keys L _ _ _ _ _ _ _ _ Hrun) as (e' & He' & _ & Hkeys & _).
  rewrite He in He'. injection He' as <-.
  rewrite <- length_map_to_list, <- (length_fmap fst).
  change 4%nat with (length [py "homepage"; py "navbar"; py "footer"; py "case_study"]).
  apply submseteq_length, NoDup_submseteq; [apply NoDup_fst_map_to_list|].
  intros k Hk. apply Hkeys. apply list_elem_of_fmap in Hk as ([k' v] & -> & Hkv).
  apply elem_of_map_to_list in Hkv. by exists v.
Qed.

(** The site directory of the crawler is never the record file of the
    transformer. *)
Lemma site_directory_not_record_file (d : pystr) :
  path_join RAW_DIR d ≠ path_join PROCESSED_DIR (d ++ py ".json").
Proof.
  unfold path_join. destruct d as [|c d'].
  - vm_compute. discriminate.
  - change (startswith (py "/") ((c :: d') ++ py ".json"))
      with (startswith (py "/") (c :: d')).
    destruct (startswith (py "/") (c :: d')).
    + intros Heq. apply (f_equal length) in Heq. rewrite length_app in Heq.
      change (length (py ".json")) with 5%nat in Heq. lia.
    + vm_compute. discriminate.
Qed.

(** X23: when the record file of a site can be opened for writing as the
    run starts (the directory of the record files exists), then after a
    successful crawl of the site its extract task and then its transform task
    succeed, and the record file of the site holds between one and four
    records, all for this site and with the run's timestamp, sharing one
    activity flag that is true exactly when some record has content.  Each
    task may read the clock at its own time. *)
Theorem site_chain_after_successful_crawl (net : network) utcnow utcnow2 utcnow3 url
    execution_date w w1 n p :
  writable (w_fs w) (path_join PROCESSED_DIR (get_domain L url ++ py ".json")) = true →
  crawl_website L net utcnow url RAW_DIR (Some execution_date)
    MAX_CASE_STUDY_PAGES MAX_INTERNAL_PAGES w = (w1, CrawlSuccess n p) →
  crawl_single L net utcnow url execution_date w = w1
  ∧ ∃ fs2 fs3 records active,
      extract_single L utcnow2 url execution_date (w_fs w1) = Some fs2
      ∧ transform_single L utcnow3 url execution_date fs2 = Some fs3
      ∧ files fs3 !! path_join PROCESSED_DIR (get_domain L url ++ py ".json")
        = Some (FRecords records)
      ∧ (1 ≤ length records ≤ 4)%nat
      ∧ (∀ r, r ∈ records →
           r_isActive r = active ∧ r_website r = url
           ∧ r_crawl_timestamp r = execution_date ++ py "Z")
      ∧ (active = true ↔ ∃ r, r ∈ records ∧ r_content r ≠ []).
Proof.
  intros Hopen Hrun. split; [unfold crawl_single; by rewrite Hrun|].
  set (bd := path_join RAW_DIR (get_domain L url)).
  (* the crawl's artifacts *)
  destruct (successful_crawl_writes_metadata L _ _ _ _ _ _ _ _ _ _ _ Hrun) as [Hp _].
  destruct (crawl_success_metadata L _ _ _ _ _ _ _ _ _ _ _ Hrun)
    as (md & Hmd & _ & _ & Hstatus & _).
  fold bd in Hp. rewrite Hp in Hmd.
  pose proof (crawl_files L net utcnow url RAW_DIR (Some execution_date)
                MAX_CASE_STUDY_PAGES MAX_INTERNAL_PAGES w) as (Hdirs & _ & _).
  rewrite Hrun in Hdirs. cbn [fst] in Hdirs. fold bd in Hdirs.
  assert (isdir (w_fs w1) bd = true) as Hdir.
  { unfold isdir. rewrite Hdirs. apply bool_decide_eq_true_2, elem_of_union. left.
    by apply elem_of_singleton. }
  assert (is_Some (files (w_fs w1) !! path_join bd (py "homepage.html"))) as Hhome.
  { destruct (crawl_success_entries L _ _ _ _ _ _ _ _ _ _ _ Hrun) as (md' & Hmd' & Hent).
    rewrite Hp, Hmd in Hmd'. injection Hmd' as <-.
    apply homepage_status_200 in Hstatus as (pe & Hpe & _).
    destruct (Hent _ _ Hpe) as (u & body & _ & Hfile). fold bd in Hfile. by exists (FText body). }
  (* the extraction *)
  destruct (extract_and_tag_total L utcnow2 url RAW_DIR (Some execution_date) (w_fs w1))
    as [[fs2 r2] Hext].
  destruct (extract_keeps_metadata_file L _ _ _ _ _ _ _ Hext) as [Hkeep Hdirs2].
  fold bd in Hkeep. rewrite Hmd in Hkeep.
  pose proof Hext as Hinv.
  apply extract_and_tag_inv in Hinv as [(Hno & _) | (_ & cc & _ & Hfs2 & Hr2)];
    [fold bd in Hno; congruence|].
  fold bd in Hfs2, Hr2. cbv zeta in Hfs2, Hr2. rewrite Hr2 in Hext.
  destruct (extract_success_keys L _ _ _ _ _ _ _ _ Hext) as (e & He & _ & _ & Hhomekey & _).
  pose proof (extract_success_size _ _ _ _ _ _ _ _ _ Hext He) as Hsize.
  fold bd in Hhomekey. apply Hhomekey in Hhome as [home Hhome].
  (* the transform *)
  set (records := build_records url (run_timestamp (Some execution_date) utcnow3)
                    (is_active md e) (sections e)).
  set (pp := path_join PROCESSED_DIR (get_domain L url ++ py ".json")).
  assert (transform_to_standard L utcnow3 url RAW_DIR PROCESSED_DIR
            (Some execution_date) fs2
          = (write_file pp (FRecords records) fs2, TransformSuccess (length records) pp))
    as Htr.
  { unfold transform_to_standard. fold bd. fold pp.
    assert (isdir fs2 bd = true) as -> by (unfold isdir in *; by rewrite Hdirs2).
    cbn [negb]. unfold isfile. rewrite He, Hkeep.
    rewrite !bool_decide_eq_true_2 by eauto. cbn [andb negb]. unfold open_w.
    fold records.
    assert (writable fs2 pp = true) as ->; [|reflexivity].
    apply (writable_more_dirs (w_fs w)); [| |exact Hopen].
    - intros d Hd. rewrite Hdirs2, Hdirs. apply elem_of_union. by right.
    - rewrite Hdirs2, Hdirs. intros [Hbd%elem_of_singleton | Hold]%elem_of_union.
      + symmetry in Hbd. by apply site_directory_not_record_file in Hbd.
      + unfold writable in Hopen. apply andb_true_iff in Hopen as [_ Hnd].
        apply negb_true_iff, bool_decide_eq_false in Hnd. done. }
  exists fs2, (write_file pp (FRecords records) fs2), records, (is_active md e).
  split_and!.
  - unfold extract_single. by rewrite Hext.
  - unfold transform_single. by rewrite Htr.
  - cbn [files write_file]. apply lookup_insert_eq.
  - unfold records, build_records. rewrite length_fmap, length_map_to_list.
    assert (size (sections e) ≠ 0%nat); [|lia].
    intros Hz%map_size_empty_inv. rewrite Hz in Hhome. by rewrite lookup_empty in Hhome.
  - unfold records, build_records. by rewrite length_fmap, length_map_to_list.
  - intros r Hr. apply build_records_fields in Hr as (? & ? & ? & _). done.
  - unfold is_active. rewrite Hstatus. cbn [Z.eqb Pos.eqb andb].
    rewrite has_content_spec. split.
    + intros (k & c & Hk & Hc).
      destruct (build_records_complete url (run_timestamp (Some execution_date) utcnow3)
                  (is_active md e) _ _ _ Hk) as (r & Hr & _ & Hrc).
      exists r. split; [done|]. by rewrite Hrc.
    + intros (r & Hr & Hc). apply build_records_fields in Hr as (_ & _ & _ & Hk).
      by exists (r_section r), (r_content r).
Qed.
End SiteChain.

(** ** Aggregator: which sites and records are counted *)

Section Counting.
Context (L : PyLib).

Lemma count_if_perm {A} (p : A → bool) (l1 l2 : list A) :
  l1 ≡ₚ l2 → count_if p l1 = count_if p l2.
Proof.
  unfold count_if. induction 1 as [|x l1 l2 _ IH|x y l|l1 l2 l3 _ IH1 _ IH2]; simpl.
  - done.
  - destruct (p x); simpl; by rewrite IH.
  - by destruct (p x), (p y).
  - by rewrite IH1.
Qed.

(** Counting the values of a map that pass a test is measuring the set of
    their keys. *)
Lemma count_if_map_values (p : bool → bool) (m : gmap pystr bool) :
  count_if p (map_to_list m).*2 = size (dom (filter (λ kv, p kv.2 = true) m)).
Proof.
  induction m as [|i x m Hi _ IH] using map_first_key_ind.
  - by rewrite map_to_list_empty, map_filter_empty, dom_empty_L, size_empty.
  - rewrite (count_if_perm p _ (x :: (map_to_list m).*2))
      by (by rewrite map_to_list_insert).
    rewrite map_filter_insert, delete_id by done. unfold count_if in *.
    cbn [List.filter]. destruct (p x) eqn:Hp.
    + rewrite decide_True by done. rewrite dom_insert_L, size_union, size_singleton.
      * cbn [length]. by rewrite IH.
      * apply disjoint_singleton_l. rewrite elem_of_dom.
        intros [y Hy]. apply map_lookup_filter_Some in Hy as [Hy _]. congruence.
    + rewrite decide_False by (simpl; congruence). by rewrite IH.
Qed.

(** The flag the loading loop records for a site is the flag of the first
    record of its stored list. *)
Lemma load_processed_status fs dir websites : ∀ acc ld,
  load_processed fs dir websites acc = Some ld →
  ∀ u, website_active_status ld !! u
       = match first_flag fs dir u with
         | Some b => if decide (u ∈ websites) then Some b
                     else website_active_status acc !! u
         | None => website_active_status acc !! u
         end.
Proof.
  induction websites as [|url rest IH]; intros acc ld; cbn [load_processed].
  - intros [= <-] u. destruct (first_flag fs dir u); [|done].
    rewrite decide_False; [done | by intros H%elem_of_nil].
  - destruct (files fs !! processed_file dir url) as [f|] eqn:Hf.
    + destruct f as [| | |records|]; try discriminate.
      intros Hld u. rewrite (IH _ _ Hld u). cbn [website_active_status].
      destruct (first_flag fs dir u) as [b|] eqn:Hb.
      * destruct (decide (u ∈ rest)) as [Hin|Hnin].
        { rewrite decide_True; [done | by right]. }
        destruct (decide (u = url)) as [->|Hne].
        -- rewrite decide_True by (by left).
           unfold first_flag, stored_records in Hb. rewrite Hf in Hb.
           destruct records as [|r rs]; [discriminate|]. simpl in Hb.
           injection Hb as <-. by rewrite lookup_insert_eq.
        -- rewrite decide_False by (intros [?|?]%elem_of_cons; done).
           destruct records; [done|]. by rewrite lookup_insert_ne.
      * destruct records as [|r rs]; [done|].
        destruct (decide (u = url)) as [->|Hne]; [|by rewrite lookup_insert_ne].
        unfold first_flag, stored_records in Hb. rewrite Hf in Hb. discriminate.
    + intros Hld u. rewrite (IH _ _ Hld u).
      destruct (first_flag fs dir u) as [b|] eqn:Hb; [|done].
      destruct (decide (u ∈ rest)) as [Hin|Hnin].
      { rewrite decide_True; [done | by right]. }
      rewrite decide_False; [done|]. intros [->|?]%elem_of_cons; [|done].
      unfold first_flag, stored_records in Hb. rewrite Hf in Hb. discriminate.
Qed.

Lemma load_processed_flagged fs dir websites ld (P : bool → Prop)
    `{!∀ b, Decision (P b)} :
  load_processed fs dir websites {| all_records := []; website_active_status := ∅ |}
    = Some ld →
  dom (filter (λ kv : pystr * bool, P kv.2) (website_active_status ld))
  = list_to_set (filter (λ u, ∃ b, first_flag fs dir u = Some b ∧ P b) websites).
Proof.
  intros Hld. apply set_eq. intros u.
  rewrite elem_of_dom, elem_of_list_to_set, list_elem_of_filter.
  unfold is_Some. setoid_rewrite map_lookup_filter_Some.
  rewrite (load_processed_status _ _ _ _ _ Hld u). cbn [website_active_status].
  rewrite lookup_empty. split.
  - intros (b & Hb & HP). destruct (first_flag fs dir u) as [b'|]; [|discriminate].
    destruct (decide (u ∈ websites)); [|discriminate]. injection Hb as ->.
    split; [by exists b | done].
  - intros [(b & Hb & HP) Hin]. exists b. rewrite Hb, decide_True by done. done.
Qed.

(** X24: the three site counters of a Summary count distinct configured
    URLs: the processed sites are those with a non-empty stored record list,
    and a site is active or inactive by the flag of the first record of its
    list. *)
Theorem summary_counters_count_sites utcnow websites processed_base_dir metrics_dir
    execution_date fs fs' m path :
  compute_and_save_metrics L utcnow websites processed_base_dir metrics_dir
    execution_date fs = (fs', AggregateSuccess m path) →
  total_websites_processed m
  = size (list_to_set
            (filter (λ u, is_Some (first_flag fs processed_base_dir u)) websites)
          : gset pystr)
  ∧ active_websites m
    = size (list_to_set
              (filter (λ u, first_flag fs processed_base_dir u = Some true) websites)
            : gset pystr)
  ∧ inactive_websites m
    = size (list_to_set
              (filter (λ u, first_flag fs processed_base_dir u = Some false) websites)
            : gset pystr).
Proof.
  intros Hrun. unfold compute_and_save_metrics in Hrun.
  destruct (load_processed _ _ _ _) as [ld|] eqn:Hld; [|discriminate].
  assert (m = compute_metrics L (run_timestamp execution_date utcnow) ld) as ->.
  { destruct (all_records ld); [discriminate|].
    destruct (open_w _ _ _); [|discriminate]. by injection Hrun as _ <- _. }
  cbn [total_websites_processed active_websites inactive_websites compute_metrics].
  rewrite (list_filter_iff (λ u, is_Some (first_flag fs processed_base_dir u))
             (λ u, ∃ b, first_flag fs processed_base_dir u = Some b ∧ True))
    by (intros u; unfold is_Some; split; [intros [b ?]; by exists b | intros (b & ? & _); by exists b]).
  rewrite (list_filter_iff (λ u, first_flag fs processed_base_dir u = Some true)
             (λ u, ∃ b, first_flag fs processed_base_dir u = Some b ∧ b = true))
    by (intros u; split; [intros ?; by exists true | by intros (b & ? & ->)]).
  rewrite (list_filter_iff (λ u, first_flag fs processed_base_dir u = Some false)
             (λ u, ∃ b, first_flag fs processed_base_dir u = Some b ∧ b = false))
    by (intros u; split; [intros ?; by exists false | by intros (b & ? & ->)]).
  rewrite <- !(load_processed_flagged fs processed_base_dir websites ld) by done.
  split_and!.
  - rewrite <- size_dom. f_equal. f_equal. symmetry. by apply map_filter_id.
  - by rewrite count_if_map_values.
  - rewrite count_if_map_values. f_equal. f_equal. apply map_filter_ext.
    intros i [] _; simpl; split; congruence.
Qed.

(** X25: when no configured site has a stored record (no file, or an empty
    list), and in particular when no site is configured, the aggregation
    reports [skipped] with the reason [no_data] and writes nothing. *)
Theorem aggregation_without_records_is_skipped utcnow websites processed_base_dir
    metrics_dir execution_date fs :
  (∀ u, u ∈ websites →
        files fs !! processed_file processed_base_dir u = None
        ∨ files fs !! processed_file processed_base_dir u = Some (FRecords [])) →
  compute_and_save_metrics L utcnow websites processed_base_dir metrics_dir
    execution_date fs = (fs, AggregateSkipped (py "no_data")).
Proof.
  intros Hnone. unfold compute_and_save_metrics.
  destruct (load_processed_total fs processed_base_dir websites
              {| all_records := []; website_active_status := ∅ |}) as (ld & Hld & _).
  { intros u f Hu Hf. destruct (Hnone u Hu) as [H|H]; rewrite H in Hf; [done|].
    injection Hf as <-. by eexists. }
  rewrite Hld. apply load_processed_records in Hld. cbn [all_records app] in Hld.
  assert (concat (stored_records fs processed_base_dir <$> websites) = []) as Hempty.
  { clear Hld. induction websites as [|u rest IH]; [done|].
    rewrite fmap_cons. cbn [concat].
    rewrite IH by (intros u' Hu'; apply Hnone; by right).
    unfold stored_records. by destruct (Hnone u) as [-> | ->]; [left|..]. }
  by rewrite Hld, Hempty.
Qed.

Lemma sum_list_with_fmap {A B} (g : B → nat) (h : A → B) (l : list A) :
  sum_list_with g (h <$> l) = sum_list_with (g ∘ h) l.
Proof. induction l as [|x l IH]; csimpl; [done|]. by rewrite IH. Qed.

(** Every record with content adds one length to the grouping. *)
Lemma collect_lengths_total rs : ∀ (m : gmap pystr (list nat)),
  sum_list_with (λ kv, length kv.2) (map_to_list (collect_lengths rs m))
  = (sum_list_with (λ kv, length kv.2) (map_to_list m)
     + length (filter (λ r, r_content r ≠ []) rs))%nat.
Proof.
  induction rs as [|r rs IH]; intros m; simpl; [lia|].
  rewrite IH, filter_cons. destruct (r_content r) as [|c t] eqn:Hc.
  - rewrite decide_False by (by intros H). lia.
  - rewrite decide_True by done. simpl.
    destruct (m !! r_section r) as [old|] eqn:Hold; simpl.
    + rewrite <- (insert_delete_eq m).
      rewrite map_to_list_insert by apply lookup_delete_eq.
      rewrite <- (map_to_list_delete m _ _ Hold). simpl. rewrite length_app. simpl. lia.
    + rewrite map_to_list_insert by done. simpl. lia.
Qed.

(** X26: the per-section record counts of a Summary add up to the number of
    loaded records with non-empty content: no such record is left out or
    counted twice. *)
Theorem section_counts_add_up utcnow websites processed_base_dir metrics_dir
    execution_date fs fs' m path :
  compute_and_save_metrics L utcnow websites processed_base_dir metrics_dir
    execution_date fs = (fs', AggregateSuccess m path) →
  total_count (content_length_stats m)
  = length (filter (λ r, r_content r ≠ [])
              (concat (stored_records fs processed_base_dir <$> websites))).
Proof.
  intros Hrun. unfold compute_and_save_metrics in Hrun.
  destruct (load_processed _ _ _ _) as [ld|] eqn:Hld; [|discriminate].
  apply load_processed_records in Hld. cbn [all_records app] in Hld.
  assert (m = compute_metrics L (run_timestamp execution_date utcnow) ld) as ->.
  { destruct (all_records ld); [discriminate|].
    destruct (open_w _ _ _); [|discriminate]. by injection Hrun as _ <- _. }
  unfold total_count. cbn [content_length_stats compute_metrics].
  rewrite map_to_list_fmap, sum_list_with_fmap, <- Hld.
  pose proof (collect_lengths_total (all_records ld) ∅) as Htotal.
  rewrite map_to_list_empty in Htotal. cbn [sum_list_with] in Htotal.
  etrans; [|exact Htotal]. reflexivity.
Qed.

Lemma before_slash_no_slash s : 47 ∉ before_slash s.
Proof.
  induction s as [|c s IH]; cbn [before_slash]; [by intros H%elem_of_nil|].
  destruct (c =? 47) eqn:E; [by intros H%elem_of_nil|].
  intros [<-|H]%elem_of_cons; [discriminate | done].
Qed.

(** X27: the domain that the aggregator derives from a URL never contains a
    slash, so the record file it looks for lies directly in the processed
    directory. *)
Theorem simplified_domain_has_no_slash url : 47 ∉ simplified_domain url.
Proof. apply before_slash_no_slash. Qed.

(** X28: the aggregation finds what the transform wrote: when the two
    derivations of the domain agree on a configured URL and the transform of
    that site succeeded with at least one record, the aggregation computes a
    Summary that counts the site; it writes and returns this Summary when
    [summary.json] can be opened for writing, and raises without writing
    when it cannot (the metrics directory is missing). *)
Theorem aggregation_counts_transformed_site utcnow utcnow' url websites raw_base_dir
    processed_base_dir metrics_dir execution_date execution_date' fs fs' k p :
  get_domain L url = simplified_domain url →
  url ∈ websites →
  transform_to_standard L utcnow url raw_base_dir processed_base_dir execution_date fs
    = (fs', TransformSuccess (S k) p) →
  (∀ u f, u ∈ websites → files fs' !! processed_file processed_base_dir u = Some f →
          ∃ rs, f = FRecords rs) →
  ∃ m,
    compute_and_save_metrics L utcnow' websites processed_base_dir metrics_dir
      execution_date' fs'
    = (if writable fs' (path_join metrics_dir (py "summary.json"))
       then (write_file (path_join metrics_dir (py "summary.json")) (FSummary m) fs',
             AggregateSuccess m (path_join metrics_dir (py "summary.json")))
       else (fs', AggregateRaised))
    ∧ is_Some (first_flag fs' processed_base_dir url)
    ∧ (1 ≤ total_websites_processed m)%nat.
Proof.
  intros Hdom Hurl Htr Hwf.
  assert (∃ r rs, files fs' !! processed_file processed_base_dir url
                  = Some (FRecords (r :: rs))) as (r & rs & Hfile).
  { unfold transform_to_standard in Htr. unfold processed_file. rewrite <- Hdom.
    destruct (isdir fs _); cbn [negb] in Htr; [|discriminate].
    destruct (isfile fs _ && isfile fs _); cbn [negb] in Htr; [|discriminate].
    destruct (files fs !! _) as [[| |e| |]|]; try discriminate.
    destruct (files fs !! _) as [[|md| | |]|]; try discriminate.
    unfold open_w in Htr. destruct (writable fs _); [|discriminate].
    injection Htr as <- Hlen _. cbn [files write_file]. rewrite lookup_insert_eq.
    destruct (build_records _ _ _ _) as [|r rs]; [discriminate|]. by exists r, rs. }
  destruct (load_processed_total fs' processed_base_dir websites
              {| all_records := []; website_active_status := ∅ |} Hwf)
    as (ld & Hld & Hsites).
  destruct (Hsites url r rs Hurl Hfile) as [Hin Hne].
  unfold compute_and_save_metrics. rewrite Hld.
  destruct (all_records ld) as [|r0 rs0] eqn:Hall; [done|].
  eexists. split.
  { unfold open_w. destruct (writable fs' _); reflexivity. }
  split.
  - unfold first_flag, stored_records. rewrite Hfile. by eexists.
  - cbn [total_websites_processed compute_metrics].
    apply elem_of_dom in Hin as [b Hb].
    assert (size (website_active_status ld) ≠ 0%nat); [|lia].
    intros Hz%map_size_empty_inv. rewrite Hz in Hb. by rewrite lookup_empty in Hb.
Qed.

(** X29: case-study pages with different numbers are stored under different
    paths, also beyond the two digits of the format: no page overwrites
    another one. *)
Theorem case_study_paths_are_distinct (base_dir : pystr) :
  Inj (=) (=) (λ i, path_join base_dir (case_study_file i)).
Proof. apply case_study_path_inj. Qed.
End Counting.

(** * The statements on concrete sites *)

Example clean_demo :
  clean_text ([32; 32] ++ py "a" ++ [32; 9; 32] ++ py "b" ++ [10; 32] ++ py "c" ++ [32])
    = py "a b c"
  ∧ fmt_02d 7 = py "07" ∧ fmt_02d 12 = py "12" ∧ fmt_02d 123 = py "123"
  ∧ str_of_int 404 = py "404" ∧ join (py " ") [py "a"; py "b"] = py "a b"
  ∧ simplified_domain (py "https://a.com/path") = py "a.com".
Proof. vm_compute. split_and!; reflexivity. Qed.

(** C1: on the text [a], space, U+200B, space, [b] the cleaning collapses
    nothing, removes the zero-width space and returns [a], two spaces, [b]:
    the output holds a whitespace run of two, and cleaning it again gives a
    different text, [a b]. *)
Theorem clean_text_zero_width_between_spaces :
  let text := py "a" ++ [32; 0x200B; 32] ++ py "b" in
  clean_text text = py "a  b"
  ∧ has_whitespace_run (clean_text text) = true
  ∧ clean_text (clean_text text) = py "a b"
  ∧ clean_text (clean_text text) ≠ clean_text text.
Proof. vm_compute. split_and!; try reflexivity. discriminate. Qed.

(** C2: the homepage links two case studies, the first answers 404 and the
    second 200.  The crawl succeeds with one case study found and stores it
    under the number 2: there is no [case_study_01], neither as a file nor in
    the metadata, and the extraction stage, which stops at the first missing
    number, produces no [case_study] section from the stored page. *)
Theorem failed_case_study_consumes_number :
  let r := crawl_website demo_lib gap_net demo_now demo_url (py "data/raw") None
             MAX_CASE_STUDY_PAGES MAX_INTERNAL_PAGES empty_world in
  r.2 = CrawlSuccess 1 (py "data/raw/x.com/metadata.json")
  ∧ files (w_fs r.1) !! py "data/raw/x.com/case_study_01.html" = None
  ∧ files (w_fs r.1) !! py "data/raw/x.com/case_study_02.html"
    = Some (FText (py "story b"))
  ∧ (∃ md, files (w_fs r.1) !! py "data/raw/x.com/metadata.json" = Some (FMetadata md)
           ∧ pages md !! py "case_study_01" = None
           ∧ is_Some (pages md !! py "case_study_02"))
  ∧ ∃ fs', extract_and_tag demo_lib demo_now demo_url (py "data/raw") None (w_fs r.1)
           = Some (fs', ExtractSuccess [py "homepage"]
                          (py "data/raw/x.com/extracted.json")).
Proof.
  vm_compute. split_and!; try reflexivity.
  - eexists. split_and!; [reflexivity | reflexivity | eexists; reflexivity].
  - eexists. reflexivity.
Qed.

(** The transform of the site [x.com] after a complete run: two records, one
    of them for the empty navbar, both active. *)
Lemma transform_one_record_per_section_witness :
  ∃ records,
    (transform_to_standard demo_lib demo_now demo_url (py "data/raw")
       (py "data/processed") None crawled_fs).2
    = TransformSuccess (length records) (py "data/processed/x.com.json")
    ∧ length records = 2%nat
    ∧ ∀ r, r ∈ records → r_isActive r = true.
Proof.
  destruct (transform_one_record_per_section demo_lib demo_now demo_url (py "data/raw")
              (py "data/processed") None crawled_fs demo_extracted demo_metadata)
    as (records & active & Hrun & Hactive & Hall & _ & _ & Hlen);
    [vm_compute; reflexivity..|].
  exists records. split_and!.
  - rewrite Hrun. reflexivity.
  - rewrite Hlen. reflexivity.
  - intros r Hr. destruct (Hall r Hr) as [-> _]. apply Hactive. split.
    + eexists. split; reflexivity.
    + exists (py "homepage"), (py "Hello"). split; [reflexivity | discriminate].
Defined.

(** The three processed sites: two active and one inactive. *)
Lemma summary_active_plus_inactive_witness :
  ∃ m,
    (compute_and_save_metrics demo_lib demo_now three_sites (py "data/processed")
       (py "data/metrics") None three_sites_fs).2
    = AggregateSuccess m (py "data/metrics/summary.json")
    ∧ (active_websites m + inactive_websites m = total_websites_processed m)%nat.
Proof.
  destruct (summary_active_plus_inactive demo_lib demo_now three_sites
              (py "data/processed") (py "data/metrics") None three_sites_fs)
    as (m & Hrun & Hsum & _).
  - intros url f Hurl.
    repeat (apply elem_of_cons in Hurl as [-> | Hurl]);
      [| | | by apply elem_of_nil in Hurl];
      vm_compute; intros [= <-]; eexists; reflexivity.
  - exists (py "https://a.com"), (homepage_record (py "https://a.com") 100 true), [].
    split; [by left | vm_compute; reflexivity].
  - exists m. split; [rewrite Hrun; reflexivity | exact Hsum].
Defined.

(** C5, as stated, fails on a homepage that answers 404 with the body
    [Not Found]: the reason is [homepage_404], not [homepage_status], and the
    stored [homepage.html] is empty, not the body. *)
Lemma homepage_404_reason_and_body :
  let r := crawl_website demo_lib net_404 demo_now demo_url (py "data/raw") None
             MAX_CASE_STUDY_PAGES MAX_INTERNAL_PAGES empty_world in
  (∀ md, r.2 ≠ CrawlStopped (py "partial") (py "homepage_status") md)
  ∧ (∃ md, r.2 = CrawlStopped (py "partial") (py "homepage_404") md)
  ∧ files (w_fs r.1) !! py "data/raw/x.com/homepage.html" ≠ Some (FText (py "Not Found"))
  ∧ files (w_fs r.1) !! py "data/raw/x.com/homepage.html" = Some (FText []).
Proof.
  vm_compute. split_and!; try reflexivity; try discriminate.
  eexists. reflexivity.
Qed.

(** A homepage that answers 404: one request, reason [homepage_404]. *)
Lemma non_200_homepage_is_partial_witness :
  ∃ md,
    (crawl_website demo_lib net_404 demo_now demo_url (py "data/raw") None
       MAX_CASE_STUDY_PAGES MAX_INTERNAL_PAGES empty_world).2
    = CrawlStopped (py "partial") (py "homepage_404") md
    ∧ w_log (crawl_website demo_lib net_404 demo_now demo_url (py "data/raw") None
               MAX_CASE_STUDY_PAGES MAX_INTERNAL_PAGES empty_world).1
      = [demo_url].
Proof.
  rewrite (non_200_homepage_is_partial demo_lib net_404 demo_now demo_url (py "data/raw")
             None MAX_CASE_STUDY_PAGES MAX_INTERNAL_PAGES empty_world 404 (py "Not Found"));
    [|reflexivity|lia].
  eexists. split; reflexivity.
Defined.

(** C6: a homepage that links [/about] twice puts the resolved URL twice in
    the internal-candidate list. *)
Theorem internal_candidates_repeat_url :
  ∃ acc,
    link_classifier demo_lib demo_url dup_homepage MAX_INTERNAL_PAGES = Some acc
    ∧ internal_candidates acc = [py "https://x.com/about"; py "https://x.com/about"]
    ∧ ¬ NoDup (internal_candidates acc).
Proof.
  eexists. split; [vm_compute; reflexivity|]. split; [reflexivity|].
  cbn [internal_candidates]. intros Hnd. apply NoDup_cons in Hnd as [Hnotin _].
  apply Hnotin. by left.
Qed.

(** The link [/Case-Study/acme] lies under the base URL and still leaves the
    internal list to [/about] and [/blog]. *)
Lemma case_study_anchor_never_internal_witness :
  ∃ acc',
    classify_links demo_lib demo_url MAX_INTERNAL_PAGES no_candidates
      ([py "/about"] ++ [py "/blog"]) = Some acc'
    ∧ internal_candidates acc' = [py "https://x.com/about"; py "https://x.com/blog"].
Proof.
  destruct (case_study_anchor_never_internal demo_lib demo_url mixed_homepage
              MAX_INTERNAL_PAGES [py "/about"] (py "/Case-Study/acme") [py "/blog"]
              {| case_study_candidates := [py "https://x.com/Case-Study/acme"];
                 internal_candidates := [py "https://x.com/about"; py "https://x.com/blog"] |})
    as [_ (acc' & Hrun & Hint)]; [vm_compute; reflexivity..|].
  exists acc'. split; [exact Hrun | exact Hint].
Defined.

(** Three sites whose homepage contents have the lengths 100, 200 and 300. *)
Example three_sites_homepage_stats :
  ∃ m,
    (compute_and_save_metrics demo_lib demo_now three_sites (py "data/processed")
       (py "data/metrics") None three_sites_fs).2
    = AggregateSuccess m (py "data/metrics/summary.json")
    ∧ content_length_stats m !! py "homepage"
      = Some {| st_min := 100; st_max := 300; st_avg := PyInt 200; st_count := 3 |}
    ∧ content_length_stats m !! py "footer" = None
    ∧ total_websites_processed m = 3%nat
    ∧ active_websites m = 2%nat ∧ inactive_websites m = 1%nat.
Proof. eexists. vm_compute. split_and!; reflexivity. Qed.


(** C9, as stated, fails on a site whose only case-study page is an empty
    document: the page is read and the extraction succeeds, yet the section
    map has no [case_study] key at all. *)
Lemma case_study_key_absent_for_empty_page :
  files empty_case_fs !! py "data/raw/x.com/case_study_01.html" = Some (FText [])
  ∧ ∃ e,
      extract_and_tag demo_lib demo_now demo_url (py "data/raw") None empty_case_fs
      = Some (write_file (py "data/raw/x.com/extracted.json") (FExtracted e) empty_case_fs,
              ExtractSuccess [] (py "data/raw/x.com/extracted.json"))
      ∧ sections e !! py "case_study" = None
      ∧ ¬ is_Some (sections e !! py "case_study").
Proof.
  split; [vm_compute; reflexivity|].
  eexists. split; [vm_compute; reflexivity|]. split; [reflexivity|].
  intros [t Ht]. discriminate.
Qed.

(** Pages 1 to 3 are read, the empty one contributes nothing, and page 5
    beyond the gap is never read. *)
Lemma case_study_section_of_stored_pages_witness :
  ∃ e,
    extract_and_tag demo_lib demo_now demo_url (py "data/raw") None pages_fs
    = Some (write_file (py "data/raw/x.com/extracted.json") (FExtracted e) pages_fs,
            ExtractSuccess (map_to_list (sections e)).*1
              (py "data/raw/x.com/extracted.json"))
    ∧ sections e !! py "case_study" = Some (py "alpha beta").
Proof.
  destruct (case_study_section_of_stored_pages demo_lib demo_now demo_url (py "data/raw")
              None pages_fs [FText (py "alpha"); FText []; FText (py " beta ")])
    as (e & Hrun & Hcase).
  - vm_compute. reflexivity.
  - intros [|[|[|j]]] f Hj; simpl in Hj; try discriminate;
      injection Hj as <-; vm_compute; reflexivity.
  - vm_compute. reflexivity.
  - exists e. split; [exact Hrun | exact Hcase].
Defined.

(** C10, as stated, fails when an earlier complete run left its artifacts
    in the site directory: the crawl ends [failed] and writes no metadata, yet
    the transform stage finds the earlier [metadata.json] and produces
    records. *)
Lemma failed_crawl_over_earlier_run_still_transforms :
  let r := crawl_website demo_lib net_down demo_now demo_url (py "data/raw") None
             MAX_CASE_STUDY_PAGES MAX_INTERNAL_PAGES
             {| w_fs := crawled_fs; w_log := [] |} in
  (∃ md, r.2 = CrawlStopped (py "failed") (py "homepage_fetch_error") md)
  ∧ (transform_to_standard demo_lib demo_now demo_url (py "data/raw")
       (py "data/processed") None (w_fs r.1)).2
    = TransformSuccess 2 (py "data/processed/x.com.json")
  ∧ (transform_to_standard demo_lib demo_now demo_url (py "data/raw")
       (py "data/processed") None (w_fs r.1)).2
    ≠ TransformSkipped (py "missing_inputs").
Proof.
  vm_compute. split_and!; [eexists; reflexivity | reflexivity | discriminate].
Qed.

(** A first crawl of an unreachable site, followed by the transform. *)
Lemma stopped_crawl_then_transform_skips_witness :
  let r := crawl_website demo_lib net_down demo_now demo_url (py "data/raw") None
             MAX_CASE_STUDY_PAGES MAX_INTERNAL_PAGES empty_world in
  crawl_status r.2 = py "failed"
  ∧ files (w_fs r.1) !! py "data/raw/x.com/metadata.json" = None
  ∧ transform_to_standard demo_lib demo_now demo_url (py "data/raw")
      (py "data/processed") None (w_fs r.1)
    = (w_fs r.1, TransformSkipped (py "missing_inputs")).
Proof.
  intros r.
  destruct (crawl_website demo_lib net_down demo_now demo_url (py "data/raw") None
              MAX_CASE_STUDY_PAGES MAX_INTERNAL_PAGES empty_world) as [w' res] eqn:Hrun.
  assert (∃ md, res = CrawlStopped (py "failed") (py "homepage_fetch_error") md) as [md ->].
  { apply (f_equal snd) in Hrun. vm_compute in Hrun. subst res. eexists. reflexivity. }
  destruct (stopped_crawl_then_transform_skips demo_lib net_down demo_now demo_url
              (py "data/raw") (py "data/processed") None MAX_CASE_STUDY_PAGES
              MAX_INTERNAL_PAGES empty_world w' _ _ md Hrun)
    as (_ & _ & _ & Habsent & Hskip & _); [vm_compute; reflexivity|].
  subst r. cbn [fst snd crawl_status]. split_and!; [reflexivity | exact Habsent | exact Hskip].
Defined.

(** * The further statements on concrete sites *)

(** An equation between closed terms, checked by evaluating both sides. *)
Ltac by_evaluation :=
  lazymatch goal with
  | |- ?l = ?r => exact (@eq_refl _ l <: l = r)
  end.

(** A text with leading, trailing and repeated whitespace. *)
Lemma clean_text_normal_form_witness :
  clean_text (clean_text [32; 32; 97; 32; 9; 98; 10]) = clean_text [32; 32; 97; 32; 9; 98; 10]
  ∧ clean_text [32; 32; 97; 32; 9; 98; 10] = py "a b".
Proof.
  destruct (clean_text_normal_form [32; 32; 97; 32; 9; 98; 10]) as (Hidem & _).
  - apply Forall_forall. repeat constructor.
  - split; [exact Hidem | vm_compute; reflexivity].
Defined.

(** A space, a tab and a line break. *)
Lemma clean_text_of_blank_text_witness : clean_text [32; 9; 10] = [].
Proof. apply clean_text_of_blank_text. apply Forall_forall. repeat constructor. Defined.

(** Three links under the base URL with a cap of one. *)
Lemma internal_candidates_within_cap_witness :
  ∃ acc, link_classifier demo_lib demo_url mixed_homepage 1 = Some acc
         ∧ Z.of_nat (length (internal_candidates acc)) ≤ Z.max 0 1.
Proof.
  eexists. split; [vm_compute; reflexivity|].
  apply (internal_candidates_within_cap demo_lib demo_url mixed_homepage 1).
  vm_compute. reflexivity.
Defined.

Lemma candidates_are_resolved_web_links_witness :
  ∃ acc, link_classifier demo_lib demo_url mixed_homepage MAX_INTERNAL_PAGES = Some acc
         ∧ Forall (λ u, is_http u = true
                        ∧ ∃ h, h ∈ find_all_a_href demo_lib mixed_homepage
                               ∧ urljoin demo_lib demo_url (strip h) = Some u)
             (case_study_candidates acc ++ internal_candidates acc).
Proof.
  eexists. split; [vm_compute; reflexivity|].
  apply (candidates_are_resolved_web_links demo_lib demo_url mixed_homepage
           MAX_INTERNAL_PAGES).
  vm_compute. reflexivity.
Defined.

Lemma internal_candidates_extend_base_url_witness :
  ∃ acc, link_classifier demo_lib demo_url mixed_homepage MAX_INTERNAL_PAGES = Some acc
         ∧ Forall (λ u, startswith demo_url u = true ∧ u ≠ demo_url)
             (internal_candidates acc).
Proof.
  eexists. split; [vm_compute; reflexivity|].
  apply (internal_candidates_extend_base_url demo_lib demo_url mixed_homepage
           MAX_INTERNAL_PAGES).
  vm_compute. reflexivity.
Defined.

Lemma case_study_candidates_are_distinct_witness :
  ∃ acc, link_classifier demo_lib demo_url gap_homepage MAX_INTERNAL_PAGES = Some acc
         ∧ NoDup (case_study_candidates acc).
Proof.
  eexists. split; [vm_compute; reflexivity|].
  apply (case_study_candidates_are_distinct demo_lib demo_url gap_homepage
           MAX_INTERNAL_PAGES).
  vm_compute. reflexivity.
Defined.

(** The link [/about#team] is skipped. *)
Lemma fragment_and_script_links_are_skipped_witness :
  ∃ acc, link_classifier demo_lib demo_url fragment_homepage MAX_INTERNAL_PAGES = Some acc
         ∧ classify_links demo_lib demo_url MAX_INTERNAL_PAGES no_candidates
             ([py "/about"] ++ [py "/blog"]) = Some acc.
Proof.
  eexists. split; [vm_compute; reflexivity|].
  apply (fragment_and_script_links_are_skipped demo_lib demo_url fragment_homepage
           MAX_INTERNAL_PAGES [py "/about"] (py "/about#team") [py "/blog"]).
  - vm_compute. reflexivity.
  - left. vm_compute. reflexivity.
  - vm_compute. reflexivity.
Defined.

(** An unreachable site, crawled for the first time. *)
Lemma transport_error_fails_crawl_witness :
  (crawl_website demo_lib net_down demo_now demo_url (py "data/raw") None
     MAX_CASE_STUDY_PAGES MAX_INTERNAL_PAGES empty_world).2
  = CrawlStopped (py "failed") (py "homepage_fetch_error")
      {| website := demo_url; domain := py "x.com";
         crawl_timestamp := py "2026-01-20T10:30:00Z";
         pages := {[ py "homepage" := PageError (py "connection refused") ]} |}.
Proof.
  destruct (transport_error_fails_crawl demo_lib net_down demo_now demo_url (py "data/raw")
              None MAX_CASE_STUDY_PAGES MAX_INTERNAL_PAGES empty_world
              (py "connection refused") eq_refl) as (Hrun & _).
  rewrite Hrun. vm_compute. reflexivity.
Defined.

Lemma crawl_request_count_bounded_witness :
  (length (w_log (crawl_website demo_lib gap_net demo_now demo_url (py "data/raw") None
                    MAX_CASE_STUDY_PAGES MAX_INTERNAL_PAGES empty_world).1)
   ≤ length (w_log empty_world) + 1 + Z.to_nat MAX_CASE_STUDY_PAGES)%nat.
Proof. apply crawl_request_count_bounded. unfold MAX_CASE_STUDY_PAGES. lia. Defined.

(** The run in which the first of two case studies answers 404. *)
Lemma successful_crawl_metadata_witness :
  ∃ md,
    files (w_fs gap_run.1) !! py "data/raw/x.com/metadata.json" = Some (FMetadata md)
    ∧ homepage_status md = 200
    ∧ size (pages md) = 2%nat.
Proof.
  destruct (successful_crawl_metadata demo_lib gap_net demo_now demo_url (py "data/raw")
              None MAX_CASE_STUDY_PAGES MAX_INTERNAL_PAGES empty_world gap_run.1 1
              (py "data/raw/x.com/metadata.json"))
    as (md & Hmd & _ & _ & Hstatus & Hsize & _); [by_evaluation|].
  exists md. split_and!; assumption.
Defined.

Lemma successful_crawl_entries_describe_files_witness :
  ∃ md,
    files (w_fs gap_run.1) !! py "data/raw/x.com/metadata.json" = Some (FMetadata md)
    ∧ ∀ k e, pages md !! k = Some e →
        ∃ u body,
          e = PageFetched u 200 (length body) (run_timestamp None demo_now)
          ∧ files (w_fs gap_run.1)
              !! path_join (path_join (py "data/raw") (get_domain demo_lib demo_url))
                   (k ++ py ".html") = Some (FText body).
Proof.
  apply (successful_crawl_entries_describe_files demo_lib gap_net demo_now demo_url
           (py "data/raw") None MAX_CASE_STUDY_PAGES MAX_INTERNAL_PAGES empty_world
           gap_run.1 1 (py "data/raw/x.com/metadata.json")).
  by_evaluation.
Defined.

(** A crawl next to the record files of three sites: the homepage file of
    the crawled site is new, and a record file of the processed directory is
    left as it was. *)
Lemma crawl_writes_in_site_directory_only_witness :
  let w := {| w_fs := three_sites_fs; w_log := [] |} in
  let w' := (crawl_website demo_lib gap_net demo_now demo_url (py "data/raw") None
               MAX_CASE_STUDY_PAGES MAX_INTERNAL_PAGES w).1 in
  files (w_fs w') !! py "data/raw/x.com/homepage.html"
    ≠ files (w_fs w) !! py "data/raw/x.com/homepage.html"
  ∧ files (w_fs w') !! py "data/processed/a.com.json"
    = files (w_fs w) !! py "data/processed/a.com.json".
Proof.
  intros w w'. split.
  - vm_compute. discriminate.
  - apply (crawl_writes_in_site_directory_only demo_lib gap_net demo_now demo_url
             (py "data/raw") None MAX_CASE_STUDY_PAGES MAX_INTERNAL_PAGES w
             (py "data/processed/a.com.json")).
    by_evaluation.
Defined.

(** The site with case-study pages 1 to 3 and no homepage. *)
Lemma extracted_section_keys_witness :
  ∃ e,
    files pages_extracted_fs !! py "data/raw/x.com/extracted.json" = Some (FExtracted e)
    ∧ ¬ is_Some (sections e !! py "navbar").
Proof.
  destruct (extracted_section_keys demo_lib demo_now demo_url (py "data/raw") None
              pages_fs pages_extracted_fs [py "case_study"]
              (py "data/raw/x.com/extracted.json"))
    as (e & He & _ & _ & Hhome & Hnav & _); [by_evaluation|].
  exists e. split; [exact He|].
  intros (c & t & Hc)%Hnav.
  assert (is_Some (sections e !! py "homepage")) as Hsome by (eexists; exact Hc).
  apply Hhome in Hsome as [f Hf]. vm_compute in Hf. discriminate.
Defined.

Lemma extracted_case_study_is_nonempty_witness :
  ∃ e,
    files pages_extracted_fs !! py "data/raw/x.com/extracted.json" = Some (FExtracted e)
    ∧ sections e !! py "case_study" ≠ Some [].
Proof.
  apply (extracted_case_study_is_nonempty demo_lib demo_now demo_url (py "data/raw") None
           pages_fs pages_extracted_fs [py "case_study"]
           (py "data/raw/x.com/extracted.json")).
  by_evaluation.
Defined.

(** The extraction of the site with case-study pages, run a second time a
    day later without an execution date, and run a second time at the same
    reading. *)
Lemma extract_and_tag_rerun_witness :
  extract_and_tag demo_lib demo_later demo_url (py "data/raw") None pages_extracted_fs
  = extract_and_tag demo_lib demo_later demo_url (py "data/raw") None pages_fs
  ∧ extract_and_tag demo_lib demo_now demo_url (py "data/raw") None pages_extracted_fs
    = Some (pages_extracted_fs,
            ExtractSuccess [py "case_study"] (py "data/raw/x.com/extracted.json")).
Proof.
  split.
  - apply (extract_and_tag_rerun demo_lib demo_now demo_later demo_url (py "data/raw")
             None pages_fs pages_extracted_fs
             (ExtractSuccess [py "case_study"] (py "data/raw/x.com/extracted.json"))).
    by_evaluation.
  - apply (extract_and_tag_rerun demo_lib demo_now demo_now demo_url (py "data/raw")
             None pages_fs).
    + by_evaluation.
    + by right.
Defined.

(** The transform of the site [x.com], run a second time a day later
    without an execution date, and run a second time at the same reading. *)
Lemma transform_to_standard_rerun_witness :
  transform_to_standard demo_lib demo_later demo_url (py "data/raw") (py "data/processed")
    None crawled_transform.1
  = transform_to_standard demo_lib demo_later demo_url (py "data/raw")
      (py "data/processed") None crawled_fs
  ∧ transform_to_standard demo_lib demo_now demo_url (py "data/raw") (py "data/processed")
      None crawled_transform.1
    = (crawled_transform.1, TransformSuccess 2 (py "data/processed/x.com.json")).
Proof.
  split.
  - apply (transform_to_standard_rerun demo_lib demo_now demo_later demo_url
             (py "data/raw") (py "data/processed") None crawled_fs
             crawled_transform.1 crawled_transform.2).
    + vm_compute. discriminate.
    + vm_compute. discriminate.
    + apply surjective_pairing.
  - apply (transform_to_standard_rerun demo_lib demo_now demo_now demo_url
             (py "data/raw") (py "data/processed") None crawled_fs
             crawled_transform.1 (TransformSuccess 2 (py "data/processed/x.com.json"))).
    + vm_compute. discriminate.
    + vm_compute. discriminate.
    + by_evaluation.
    + by right.
Defined.

(** The three tasks of the site [x.com] in the container paths. *)
Lemma site_chain_after_successful_crawl_witness :
  ∃ fs2 fs3 records active,
    extract_single demo_lib demo_now demo_url demo_date
      (w_fs (crawl_single demo_lib gap_net demo_now demo_url demo_date container_world))
    = Some fs2
    ∧ transform_single demo_lib demo_later demo_url demo_date fs2 = Some fs3
    ∧ files fs3 !! path_join PROCESSED_DIR (get_domain demo_lib demo_url ++ py ".json")
      = Some (FRecords records)
    ∧ (1 ≤ length records ≤ 4)%nat
    ∧ (∀ r, r ∈ records →
         r_isActive r = active ∧ r_website r = demo_url
         ∧ r_crawl_timestamp r = demo_date ++ py "Z")
    ∧ (active = true ↔ ∃ r, r ∈ records ∧ r_content r ≠ []).
Proof.
  destruct (site_chain_after_successful_crawl demo_lib gap_net demo_now demo_now
              demo_later demo_url demo_date container_world
              (crawl_single demo_lib gap_net demo_now demo_url demo_date container_world)
              1 (py "/opt/airflow/data/raw/x.com/metadata.json")) as [_ H];
    [by_evaluation | by_evaluation | exact H].
Defined.

(** The three processed sites: three counted, two active, one inactive. *)
Lemma summary_counters_count_sites_witness :
  total_websites_processed three_sites_metrics = 3%nat
  ∧ active_websites three_sites_metrics = 2%nat
  ∧ inactive_websites three_sites_metrics = 1%nat.
Proof.
  destruct (summary_counters_count_sites demo_lib demo_now three_sites
              (py "data/processed") (py "data/metrics") None three_sites_fs
              (write_file (py "data/metrics/summary.json") (FSummary three_sites_metrics)
                 three_sites_fs)
              three_sites_metrics (py "data/metrics/summary.json"))
    as (Htotal & Hactive & Hinactive); [by_evaluation|].
  rewrite Htotal, Hactive, Hinactive. split_and!; by_evaluation.
Defined.

(** Three configured sites, nothing processed yet. *)
Lemma aggregation_without_records_is_skipped_witness :
  compute_and_save_metrics demo_lib demo_now three_sites (py "data/processed")
    (py "data/metrics") None empty_fs = (empty_fs, AggregateSkipped (py "no_data")).
Proof.
  apply aggregation_without_records_is_skipped.
  intros u _. left. apply lookup_empty.
Defined.

(** Three homepage records with content and one empty footer record. *)
Lemma section_counts_add_up_witness :
  total_count (content_length_stats three_sites_metrics) = 3%nat.
Proof.
  rewrite (section_counts_add_up demo_lib demo_now three_sites
             (py "data/processed") (py "data/metrics") None three_sites_fs
             (write_file (py "data/metrics/summary.json") (FSummary three_sites_metrics)
                three_sites_fs)
             three_sites_metrics (py "data/metrics/summary.json")); by_evaluation.
Defined.

(** The site [x.com]: transform, then aggregation over the one configured
    site. *)
Lemma aggregation_counts_transformed_site_witness :
  ∃ m,
    compute_and_save_metrics demo_lib demo_now [demo_url] (py "data/processed")
      (py "data/metrics") None crawled_transform.1
    = (write_file (path_join (py "data/metrics") (py "summary.json")) (FSummary m)
         crawled_transform.1,
       AggregateSuccess m (path_join (py "data/metrics") (py "summary.json")))
    ∧ (1 ≤ total_websites_processed m)%nat.
Proof.
  destruct (aggregation_counts_transformed_site demo_lib demo_now demo_now demo_url
              [demo_url] (py "data/raw") (py "data/processed") (py "data/metrics")
              None None crawled_fs crawled_transform.1 1 (py "data/processed/x.com.json"))
    as (m & Hagg & _ & Htotal).
  - by_evaluation.
  - by left.
  - by_evaluation.
  - intros u f [-> | Hu]%elem_of_cons; [|by apply elem_of_nil in Hu].
    vm_compute. intros [= <-]. eexists. reflexivity.
  - exists m. split; [exact Hagg | exact Htotal].
Defined.
